(** * HiveMind SDK: the protocol client, embedded and verified

    The repository is a thin client over two on-chain contracts (the
    HiveMind ledger and the USDC token).  Every method of the client is a
    short asynchronous script: it issues [readContract], [writeContract]
    and [waitForTransactionReceipt] requests and post-processes what comes
    back.  The embedding keeps that shape:

    - a method is a value of [Prog R], a finite tree of requests whose
      continuations receive the reply ([await] is [Await]) and whose
      leaves return a value or throw;
    - the chain is any type of worlds with a handler answering each
      request by a reply or an error and a next world; running a script
      against it yields the log of requests with their replies and either
      the value the promise fulfils with or the error it rejects with;
    - [bigint] is [Z].  A [number] the caller passes in is the value
      its [toString()] prints: an integer [Z] for ids and percentages, a
      rational [Q] for USDC amounts.  A [number] the client computes is
      a double: [Number(...)] rounds to 53 significant bits, ties to
      even, and arithmetic on the results rounds again.

    Two copies of the client live in the repository: the class of
    [client.ts] (module [Client]) and the self-contained class that
    carries its own ABI and addresses (module [Standalone]).  The
    combined statistics reads ([getHiveStats], [getStats]) run three
    calls under [Promise.all] and are values of [Task R]. *)

From Stdlib Require Import ZArith QArith Qround Qabs List String Ascii Bool Lia.
From Stdlib Require Import DecimalString.
Import ListNotations.

Local Open Scope string_scope.
Local Open Scope list_scope.
Local Open Scope Z_scope.

(** ** Values crossing the RPC boundary *)

Definition Address := string.
Definition Hash := string.
Definition Error := string.

(** What a rejected promise or a thrown exception carries. *)
Inductive Result (A : Type) : Type :=
| Ok (a : A)
| Err (e : Error).
Arguments Ok {A} a.
Arguments Err {A} e.

(** Outputs of the ledger's [agents] view, in ABI order:
    [result[0]] .. [result[5]]. *)
Record AgentsOutput := {
  out_wallet : Address;
  out_nodeId : string;
  out_creditsContributed : Z;
  out_computeScore : Z;
  out_joinedAt : Z;
  out_active : bool
}.

(** Outputs of the ledger's [projects] view: [project[0]] .. [project[5]];
    [status] is a [uint8]. *)
Record ProjectsOutput := {
  out_name : string;
  out_repoUrl : string;
  out_creator : Address;
  out_totalFunding : Z;
  out_createdAt : Z;
  out_status : Z
}.

(** Outputs of the ledger's [contributions] view. *)
Record ContributionsOutput := {
  out_percentage : Z;
  out_claimed : bool
}.

(** The part of a transaction receipt the client looks at. *)
Record Receipt := { receipt_blockNumber : Z }.

(** ** The contract call surface (HIVEMIND_ABI and USDC_ABI) *)

Module Abi.

Inductive ReadFn : Type :=
| agents (wallet : Address)
| projects (projectId : Z)
| getAgentCount
| getContributors (projectId : Z)
| projectCount
| totalCreditsPooled
| contributions (projectId : Z) (agent : Address)
| balanceOf (account : Address)
| allowance (owner spender : Address).

Inductive WriteFn : Type :=
| joinHive (nodeId : string) (creditsToPool : Z)
| createProject (name repoUrl : string) (initialFunding : Z)
| fundProject (projectId amount : Z)
| recordContribution (projectId : Z) (agent : Address) (percentage : Z)
| completeProject (projectId : Z)
| claimRewards (projectId : Z)
| approve (spender : Address) (amount : Z).

Definition ReadOut (f : ReadFn) : Type :=
  match f with
  | agents _ => AgentsOutput
  | projects _ => ProjectsOutput
  | getContributors _ => list Address
  | contributions _ _ => ContributionsOutput
  | getAgentCount | projectCount | totalCreditsPooled
  | balanceOf _ | allowance _ _ => Z
  end.

End Abi.

(** ** Requests and scripts *)

Inductive Request : Type :=
| readContract (address : Address) (functionName : Abi.ReadFn)
| writeContract (address : Address) (functionName : Abi.WriteFn)
| waitForTransactionReceipt (hash : Hash).

Definition Response (q : Request) : Type :=
  match q with
  | readContract _ f => Abi.ReadOut f
  | writeContract _ _ => Hash
  | waitForTransactionReceipt _ => Receipt
  end.

(** An asynchronous method body.  [Await q k] issues [q] and resumes with
    [k] on its reply; a rejected request rejects the whole method, since
    the client never catches.  [Throw e] is an exception raised by the
    body itself, which rejects the method just the same.
    [AwaitBoth q1 q2 k] is [await Promise.all([q1, q2])]: both requests
    are issued, in that order, before either reply is looked at. *)
Inductive Prog (R : Type) : Type :=
| Ret (r : R)
| Throw (e : Error)
| Await (q : Request) (k : Response q -> Prog R)
| AwaitBoth (q1 q2 : Request) (k : Response q1 -> Response q2 -> Prog R).
Arguments Ret {R} r.
Arguments Throw {R} e.
Arguments Await {R} q k.
Arguments AwaitBoth {R} q1 q2 k.

Fixpoint bind {A B : Type} (p : Prog A) (f : A -> Prog B) : Prog B :=
  match p with
  | Ret a => f a
  | Throw e => Throw e
  | Await q k => Await q (fun x => bind (k x) f)
  | AwaitBoth q1 q2 k => AwaitBoth q1 q2 (fun x y => bind (k x y) f)
  end.

Declare Scope prog_scope.
Delimit Scope prog_scope with prog.
Notation "x <- p ;; q" := (bind p (fun x => q))
  (at level 61, p at next level, right associativity) : prog_scope.
Notation "p ;; q" := (bind p (fun _ => q))
  (at level 61, right associativity) : prog_scope.
Local Open Scope prog_scope.

Definition await (q : Request) : Prog (Response q) := Await q Ret.

(** A call that returns or throws, inside a method body. *)
Definition try {A : Type} (r : Result A) : Prog A :=
  match r with
  | Ok a => Ret a
  | Err e => Throw e
  end.

(** A method whose body is [await Promise.all([p1, p2, p3])] followed by
    a pure return: the three asynchronous calls are started, in that
    order, before any of their results is looked at.  [Plain] is any
    other method. *)
Inductive Task (R : Type) : Type :=
| Plain (p : Prog R)
| PromiseAll3 (A B C : Type) (p1 : Prog A) (p2 : Prog B) (p3 : Prog C)
    (k : A -> B -> C -> R).
Arguments Plain {R} p.
Arguments PromiseAll3 {R A B C} p1 p2 p3 k.

(** ** JavaScript and viem primitives *)

(** [n / d] rounded to the nearest integer, ties to the even one
    ([0 <= n], [0 < d]). *)
Definition roundHalfEven (n d : Z) : Z :=
  let q := n / d in
  let r := n mod d in
  if 2 * r <? d then q
  else if d <? 2 * r then q + 1
  else if Z.even q then q else q + 1.

(** [Number(b)] on a [bigint]: the nearest double.  Up to 53 bits the
    value is kept; beyond, the low bits are rounded off, ties to even.
    (A double overflows from 2^1024 on, far above any ABI integer.) *)
Definition Number (b : Z) : Z :=
  let e := Z.log2 (Z.abs b) - 52 in
  if e <=? 0 then b
  else Z.sgn b * (roundHalfEven (Z.abs b) (2 ^ e) * 2 ^ e).

(** [x - y] and [x * y] on integral doubles: the exact result, rounded
    to a double. *)
Definition minus (x y : Z) : Z := Number (x - y).
Definition times (x y : Z) : Z := Number (x * y).

(** [BigInt(n)] on an integral [number]. *)
Definition BigInt (n : Z) : Z := n.

(** [new Date(ms)] for an integral [ms]: the time value is [ms] itself
    within 8.64e15 ms of the epoch, and [NaN] (an invalid date, [None])
    outside. *)
Record Date := { getTime : option Z }.

Definition newDate (ms : Z) : Date :=
  if Z.abs ms <=? 8640000000000000
  then {| getTime := Some ms |}
  else {| getTime := None |}.

(** [2^z], and 1 for a negative [z]. *)
Definition pow2 (z : Z) : Z := 2 ^ Z.max 0 z.

(** The integer part of the binary logarithm of [n / d] ([0 < n],
    [0 < d]). *)
Definition log2Q (n d : Z) : Z :=
  let l := Z.log2 n - Z.log2 d in
  if d * pow2 l <=? n * pow2 (- l) then l else l - 1.

(** [Number(s)] on a decimal numeral [s] of value [x]: the nearest
    double, ties to even.  The value is scaled by a power of two so that
    its integer part has 53 bits, rounded there, and scaled back.  (The
    subnormal and overflow ranges of a double are not treated: every
    amount of at most 256 bits, in units or in millionths, is of normal
    size or zero.  Beyond 20 significant digits ECMAScript lets an
    engine round from the numeral cut at the 20th digit; this is the
    correctly rounded result, which engines return.) *)
Definition NumberOfDecimal (x : Q) : Q :=
  let n := Z.abs (Qnum x) in
  let d := Zpos (Qden x) in
  if n =? 0 then 0%Q
  else
    let e := log2Q n d - 52 in
    let m := roundHalfEven (n * pow2 (- e)) (d * pow2 e) in
    (inject_Z (Z.sgn (Qnum x) * m * pow2 e) / inject_Z (pow2 (- e)))%Q.

(** Whether [n.toString()] is written in positional notation: it is for
    zero and from 1e-6 up to, not including, 1e21 in magnitude;
    elsewhere JavaScript prints an exponent ([5e-7], [1e+21]). *)
Definition printsAsDecimal (n : Q) : bool :=
  (Qnum n =? 0)
  || (Qle_bool (1 # 1000000) (Qabs n)
      && negb (Qle_bool (inject_Z (10 ^ 21)) (Qabs n))).

(** Rounding to the nearest integer, halves away from zero. *)
Definition Qround (y : Q) : Z :=
  if Qle_bool 0 y then Qfloor (y + (1 # 2)) else - Qfloor (- y + (1 # 2)).

(** Modelled from the spec: [parseUnits] and [formatUnits] are imported
    from the viem package and are not under src/.  "All amounts crossing
    this boundary are integers scaled by 10^6 (six fractional decimal
    digits); human-facing numeric inputs/outputs use decimal values scaled
    by the same factor at the edge only."  The decimal numeral the source
    passes ([n.toString()]) or parses back ([Number(s)]) is identified with
    the rational it denotes.  A value with more than [decimals] fractional
    digits is rounded to the nearest unit. *)
Definition parseUnits (value : Q) (decimals : nat) : Z :=
  Qround (value * inject_Z (10 ^ Z.of_nat decimals)).

(** Modelled from the spec: [formatUnits] is viem's too; it is the
    inverse scaling, a division by 10^decimals. *)
Definition formatUnits (value : Z) (decimals : nat) : Q :=
  inject_Z value / inject_Z (10 ^ Z.of_nat decimals).

(** What viem's [parseUnits] throws on a string that is no decimal
    numeral (viem is not under src/; the error is named after its
    class there). *)
Definition InvalidDecimalNumberError : Error := "InvalidDecimalNumberError".

(** [parseUnits(n.toString(), decimals)] on a [number] [n]: the parse of
    what [toString] prints, which [parseUnits] refuses when it carries
    an exponent. *)
Definition parseNumber (n : Q) (decimals : nat) : Result Z :=
  if printsAsDecimal n then Ok (parseUnits n decimals)
  else Err InvalidDecimalNumberError.

(** [xs[i]]: [undefined] outside the array. *)
Definition index {A : Type} (xs : list A) (i : Z) : option A :=
  if i <? 0 then None else nth_error xs (Z.to_nat i).

(** [a ?? b]. *)
Definition nullish {A : Type} (a : option A) (b : A) : A :=
  match a with
  | Some x => x
  | None => b
  end.

(** [s.startsWith(p)]. *)
Definition startsWith (s p : string) : bool := String.prefix p s.

(** Hexadecimal digits, as in a signing key. *)
Definition isHexDigit (ch : ascii) : bool :=
  let n := nat_of_ascii ch in
  ((48 <=? n)%nat && (n <=? 57)%nat)
  || ((65 <=? n)%nat && (n <=? 70)%nat)
  || ((97 <=? n)%nat && (n <=? 102)%nat).

Definition isHex (s : string) : bool :=
  forallb isHexDigit (list_ascii_of_string s).

(** The account viem derives from a private key; only its address is
    ever read. *)
Record PrivateKeyAccount := { account_address : Address }.

(** ** constants.ts *)

Inductive SupportedChain : Type := base | baseSepolia.

Module Constants.

Record ContractAddresses := { hivemind : Address; usdc : Address }.

Definition CONTRACTS (c : SupportedChain) : ContractAddresses :=
  match c with
  | base =>
      {| hivemind := "0xA1021d8287Da2cdFAfFab57CDb150088179e5f5B";
         usdc := "0x833589fCD6eDb6E08f4c7C32D4f71b54bdA02913" |}
  | baseSepolia =>
      {| hivemind := "0x0000000000000000000000000000000000000000";
         usdc := "0x036CbD53842c5426634e7929541eC2318f3dCF7e" |}
  end.

Record ChainConfig := {
  id : Z;
  name : string;
  rpcUrl : string;
  explorer : string
}.

Definition CHAINS (c : SupportedChain) : ChainConfig :=
  match c with
  | base =>
      {| id := 8453; name := "Base";
         rpcUrl := "https://mainnet.base.org";
         explorer := "https://basescan.org" |}
  | baseSepolia =>
      {| id := 84532; name := "Base Sepolia";
         rpcUrl := "https://sepolia.base.org";
         explorer := "https://sepolia.basescan.org" |}
  end.

Definition USDC_DECIMALS : nat := 6.

End Constants.

(** ** types.ts *)

Module ProjectStatus.
Definition Active : Z := 0.
Definition Completed : Z := 1.
Definition Cancelled : Z := 2.
End ProjectStatus.

Module Agent.
Record t := {
  wallet : Address;
  nodeId : string;
  creditsContributed : Z;
  computeScore : Z;
  joinedAt : Date;
  active : bool
}.
End Agent.

Module Project.
(** [status] holds the number the contract returned: the source casts
    it ([project[5] as ProjectStatus]) and a cast checks nothing. *)
Record t := {
  id : Z;
  name : string;
  repoUrl : string;
  creator : Address;
  totalFunding : Z;
  createdAt : Date;
  status : Z;
  contributors : list Address
}.
End Project.

Module Contribution.
Record t := {
  agent : Address;
  percentage : Z;
  claimed : bool
}.
End Contribution.

Module CreateProjectOptions.
Record t := {
  name : string;
  repoUrl : string;
  funding : Q
}.
End CreateProjectOptions.

Module TxResult.
Record t := {
  hash : Hash;
  blockNumber : Z
}.
End TxResult.


(** ** client.ts *)

Module Client.

Module Config.
(** [chain] and [rpcUrl] are optional. *)
Record t := {
  privateKey : string;
  chain : option SupportedChain;
  rpcUrl : option string
}.
End Config.

(** What [createPublicClient] and [createWalletClient] are given. *)
Record PublicClient := {
  public_chain : SupportedChain;
  public_transport : string
}.

Record WalletClient := {
  wallet_account : PrivateKeyAccount;
  wallet_chain : SupportedChain;
  wallet_transport : string
}.

(** The private fields of the class. *)
Record HiveMind := {
  publicClient : PublicClient;
  walletClient : WalletClient;
  account : PrivateKeyAccount;
  chain : SupportedChain;
  viemChain : SupportedChain;
  hivemindAddress : Address;
  usdcAddress : Address
}.

(** The key as it is handed to [privateKeyToAccount]. *)
Definition normalizedKey (config : Config.t) : string :=
  if startsWith (Config.privateKey config) "0x"
  then Config.privateKey config
  else ("0x" ++ Config.privateKey config)%string.

Section Construction.

(** viem's key derivation; it throws on malformed key material. *)
Variable privateKeyToAccount : string -> Result PrivateKeyAccount.

Definition constructor (config : Config.t) : Result HiveMind :=
  let chain := nullish (Config.chain config) base in
  let pk := normalizedKey config in
  match privateKeyToAccount pk with
  | Err e => Err e
  | Ok account =>
      let chainConfig := Constants.CHAINS chain in
      let contracts := Constants.CONTRACTS chain in
      let viemChain :=
        match chain with base => base | baseSepolia => baseSepolia end in
      let rpcUrl :=
        nullish (Config.rpcUrl config) (Constants.rpcUrl chainConfig) in
      Ok {| publicClient :=
              {| public_chain := viemChain; public_transport := rpcUrl |};
            walletClient :=
              {| wallet_account := account; wallet_chain := viemChain;
                 wallet_transport := rpcUrl |};
            account := account;
            chain := chain;
            viemChain := viemChain;
            hivemindAddress := Constants.hivemind contracts;
            usdcAddress := Constants.usdc contracts |}
  end.

End Construction.

Definition address (this : HiveMind) : Address :=
  account_address (account this).

Module HiveStats.
(** What [getHiveStats] resolves to. *)
Record t := {
  agentCount : Z;
  projectCount : Z;
  totalCreditsPooled : Q
}.
End HiveStats.

Section Methods.

Variable this : HiveMind.

Definition getUsdcBalance (address_ : option Address) : Prog Q :=
  balance <- await (readContract (usdcAddress this)
                      (Abi.balanceOf (nullish address_ (address this))));;
  Ret (NumberOfDecimal (formatUnits balance Constants.USDC_DECIMALS)).

Definition getAgent (address_ : option Address) : Prog (option Agent.t) :=
  result <- await (readContract (hivemindAddress this)
                     (Abi.agents (nullish address_ (address this))));;
  if out_joinedAt result =? 0 then Ret None
  else
    Ret (Some {| Agent.wallet := out_wallet result;
                 Agent.nodeId := out_nodeId result;
                 Agent.creditsContributed := out_creditsContributed result;
                 Agent.computeScore := out_computeScore result;
                 Agent.joinedAt :=
                   newDate (times (Number (out_joinedAt result)) 1000);
                 Agent.active := out_active result |}).

Definition getProject (projectId : Z) : Prog Project.t :=
  AwaitBoth
    (readContract (hivemindAddress this) (Abi.projects (BigInt projectId)))
    (readContract (hivemindAddress this)
       (Abi.getContributors (BigInt projectId)))
    (fun project contributors =>
       Ret {| Project.id := projectId;
              Project.name := out_name project;
              Project.repoUrl := out_repoUrl project;
              Project.creator := out_creator project;
              Project.totalFunding := out_totalFunding project;
              Project.createdAt :=
                newDate (times (Number (out_createdAt project)) 1000);
              Project.status := out_status project;
              Project.contributors := contributors |}).

Definition getContribution (projectId : Z) (agent : option Address)
  : Prog Contribution.t :=
  result <- await (readContract (hivemindAddress this)
                     (Abi.contributions (BigInt projectId)
                        (nullish agent (address this))));;
  Ret {| Contribution.agent := nullish agent (address this);
         Contribution.percentage := Number (out_percentage result);
         Contribution.claimed := out_claimed result |}.

Definition getProjectCount : Prog Z :=
  count <- await (readContract (hivemindAddress this) Abi.projectCount);;
  Ret (Number count).

Definition getAgentCount : Prog Z :=
  count <- await (readContract (hivemindAddress this) Abi.getAgentCount);;
  Ret (Number count).

Definition getTotalCreditsPooled : Prog Q :=
  pooled <- await (readContract (hivemindAddress this)
                     Abi.totalCreditsPooled);;
  Ret (NumberOfDecimal (formatUnits pooled Constants.USDC_DECIMALS)).

Definition ensureApproval (amount : Z) : Prog unit :=
  allowance <- await (readContract (usdcAddress this)
                        (Abi.allowance (address this)
                           (hivemindAddress this)));;
  if allowance <? amount then
    hash <- await (writeContract (usdcAddress this)
                     (Abi.approve (hivemindAddress this)
                        (parseUnits (1000000 # 1)
                           Constants.USDC_DECIMALS)));;
    _ <- await (waitForTransactionReceipt hash);;
    Ret tt
  else Ret tt.

(** [creditsToPool] defaults to 0 when the caller leaves it out. *)
Definition join (nodeId : string) (creditsToPool : option Q)
  : Prog TxResult.t :=
  amount <- try (parseNumber (nullish creditsToPool 0%Q)
                   Constants.USDC_DECIMALS);;
  (if amount >? 0 then ensureApproval amount else Ret tt);;
  hash <- await (writeContract (hivemindAddress this)
                   (Abi.joinHive nodeId amount));;
  receipt <- await (waitForTransactionReceipt hash);;
  Ret {| TxResult.hash := hash;
         TxResult.blockNumber := receipt_blockNumber receipt |}.

(** [{ projectId: number } & TxResult]. *)
Record ProjectTxResult := {
  projectId : Z;
  txResult :> TxResult.t
}.

Definition createProject (options : CreateProjectOptions.t)
  : Prog ProjectTxResult :=
  amount <- try (parseNumber (CreateProjectOptions.funding options)
                   Constants.USDC_DECIMALS);;
  (if amount >? 0 then ensureApproval amount else Ret tt);;
  hash <- await (writeContract (hivemindAddress this)
                   (Abi.createProject (CreateProjectOptions.name options)
                      (CreateProjectOptions.repoUrl options) amount));;
  receipt <- await (waitForTransactionReceipt hash);;
  projectCount <- getProjectCount;;
  let projectId := minus projectCount 1 in
  Ret {| projectId := projectId;
         txResult :=
           {| TxResult.hash := hash;
              TxResult.blockNumber := receipt_blockNumber receipt |} |}.

Definition fundProject (projectId : Z) (amount : Q) : Prog TxResult.t :=
  parsed <- try (parseNumber amount Constants.USDC_DECIMALS);;
  ensureApproval parsed;;
  hash <- await (writeContract (hivemindAddress this)
                   (Abi.fundProject (BigInt projectId) parsed));;
  receipt <- await (waitForTransactionReceipt hash);;
  Ret {| TxResult.hash := hash;
         TxResult.blockNumber := receipt_blockNumber receipt |}.

Definition recordContribution (projectId : Z) (agent : Address)
  (percentage : Z) : Prog TxResult.t :=
  hash <- await (writeContract (hivemindAddress this)
                   (Abi.recordContribution (BigInt projectId) agent
                      (BigInt percentage)));;
  receipt <- await (waitForTransactionReceipt hash);;
  Ret {| TxResult.hash := hash;
         TxResult.blockNumber := receipt_blockNumber receipt |}.

Definition completeProject (projectId : Z) : Prog TxResult.t :=
  hash <- await (writeContract (hivemindAddress this)
                   (Abi.completeProject (BigInt projectId)));;
  receipt <- await (waitForTransactionReceipt hash);;
  Ret {| TxResult.hash := hash;
         TxResult.blockNumber := receipt_blockNumber receipt |}.

Definition claimRewards (projectId : Z) : Prog TxResult.t :=
  hash <- await (writeContract (hivemindAddress this)
                   (Abi.claimRewards (BigInt projectId)));;
  receipt <- await (waitForTransactionReceipt hash);;
  Ret {| TxResult.hash := hash;
         TxResult.blockNumber := receipt_blockNumber receipt |}.

Definition getExplorerUrl (hash : Hash) : string :=
  (Constants.explorer (Constants.CHAINS (chain this)) ++ "/tx/" ++ hash)%string.

Definition getHiveStats : Task HiveStats.t :=
  PromiseAll3 getAgentCount getProjectCount getTotalCreditsPooled
    (fun agentCount projectCount totalCreditsPooled =>
       {| HiveStats.agentCount := agentCount;
          HiveStats.projectCount := projectCount;
          HiveStats.totalCreditsPooled := totalCreditsPooled |}).

End Methods.

End Client.


(** ** The self-contained client

    It fixes the ledger and token addresses, takes an already prefixed
    key, and returns bare hashes and raw token amounts. *)

Module Standalone.

Definition HIVEMIND_ADDRESS : Address :=
  "0xA1021d8287Da2cdFAfFab57CDb150088179e5f5B".
Definition USDC_ADDRESS : Address :=
  "0x833589fCD6eDb6E08f4c7C32D4f71b54bdA02913".

Module Config.
Record t := {
  privateKey : string;
  rpcUrl : option string;
  chain : option SupportedChain
}.
End Config.

Module Project.
(** [status] is [statusMap[project[5]]], hence possibly [undefined]. *)
Record t := {
  id : Z;
  name : string;
  repoUrl : string;
  creator : Address;
  totalFunding : Z;
  createdAt : Date;
  status : option string;
  contributors : list Address
}.
End Project.

Record PublicClient := {
  public_chain : SupportedChain;
  public_transport : string
}.

Record WalletClient := {
  wallet_account : PrivateKeyAccount;
  wallet_chain : SupportedChain;
  wallet_transport : string
}.

Record HiveMind := {
  publicClient : PublicClient;
  walletClient : WalletClient;
  account : PrivateKeyAccount
}.

Section Construction.

Variable privateKeyToAccount : string -> Result PrivateKeyAccount.

Definition constructor (config : Config.t) : Result HiveMind :=
  match privateKeyToAccount (Config.privateKey config) with
  | Err e => Err e
  | Ok account =>
      let chain := nullish (Config.chain config) base in
      let transport :=
        nullish (Config.rpcUrl config) "https://mainnet.base.org" in
      Ok {| publicClient :=
              {| public_chain := chain; public_transport := transport |};
            walletClient :=
              {| wallet_account := account; wallet_chain := chain;
                 wallet_transport := transport |};
            account := account |}
  end.

End Construction.

Definition address (this : HiveMind) : Address :=
  account_address (account this).

Module HiveStats.
(** [totalCreditsPooled] stays a [bigint] here. *)
Record t := {
  agentCount : Z;
  projectCount : Z;
  totalCreditsPooled : Z
}.
End HiveStats.

Section Methods.

Variable this : HiveMind.

Definition getStats : Task HiveStats.t :=
  PromiseAll3
    (await (readContract HIVEMIND_ADDRESS Abi.getAgentCount))
    (await (readContract HIVEMIND_ADDRESS Abi.projectCount))
    (await (readContract HIVEMIND_ADDRESS Abi.totalCreditsPooled))
    (fun agentCount projectCount totalCreditsPooled =>
       {| HiveStats.agentCount := Number agentCount;
          HiveStats.projectCount := Number projectCount;
          HiveStats.totalCreditsPooled := totalCreditsPooled |}).

Definition getAgent (address_ : Address) : Prog (option Agent.t) :=
  result <- await (readContract HIVEMIND_ADDRESS (Abi.agents address_));;
  if negb (out_active result) then Ret None
  else
    Ret (Some {| Agent.wallet := out_wallet result;
                 Agent.nodeId := out_nodeId result;
                 Agent.creditsContributed := out_creditsContributed result;
                 Agent.computeScore := out_computeScore result;
                 Agent.joinedAt :=
                   newDate (times (Number (out_joinedAt result)) 1000);
                 Agent.active := out_active result |}).

Definition statusMap : list string := ["Active"; "Completed"; "Cancelled"].

Definition getProject (projectId : Z) : Prog Project.t :=
  AwaitBoth
    (readContract HIVEMIND_ADDRESS (Abi.projects (BigInt projectId)))
    (readContract HIVEMIND_ADDRESS (Abi.getContributors (BigInt projectId)))
    (fun project contributors =>
       Ret {| Project.id := projectId;
              Project.name := out_name project;
              Project.repoUrl := out_repoUrl project;
              Project.creator := out_creator project;
              Project.totalFunding := out_totalFunding project;
              Project.createdAt :=
                newDate (times (Number (out_createdAt project)) 1000);
              Project.status := index statusMap (out_status project);
              Project.contributors := contributors |}).

Definition getUsdcBalance (address_ : option Address) : Prog Z :=
  await (readContract USDC_ADDRESS
           (Abi.balanceOf (nullish address_ (address this)))).

Definition approveUsdc (amount : Z) : Prog unit :=
  allowance <- await (readContract USDC_ADDRESS
                        (Abi.allowance (address this) HIVEMIND_ADDRESS));;
  if allowance <? amount then
    hash <- await (writeContract USDC_ADDRESS
                     (Abi.approve HIVEMIND_ADDRESS
                        (parseUnits (1000000 # 1) 6)));;
    _ <- await (waitForTransactionReceipt hash);;
    Ret tt
  else Ret tt.

Definition join (nodeId : string) (creditsToPool : option Q) : Prog Hash :=
  amount <- try (parseNumber (nullish creditsToPool 0%Q) 6);;
  (if amount >? 0 then approveUsdc amount else Ret tt);;
  hash <- await (writeContract HIVEMIND_ADDRESS
                   (Abi.joinHive nodeId amount));;
  _ <- await (waitForTransactionReceipt hash);;
  Ret hash.

Record CreatedProject := {
  hash : Hash;
  projectId : Z
}.

Definition createProject (name repoUrl : string) (fundingUsdc : Q)
  : Prog CreatedProject :=
  amount <- try (parseNumber fundingUsdc 6);;
  approveUsdc amount;;
  hash <- await (writeContract HIVEMIND_ADDRESS
                   (Abi.createProject name repoUrl amount));;
  _ <- await (waitForTransactionReceipt hash);;
  count <- await (readContract HIVEMIND_ADDRESS Abi.projectCount);;
  Ret {| hash := hash; projectId := minus (Number count) 1 |}.

Definition fundProject (projectId : Z) (amountUsdc : Q) : Prog Hash :=
  amount <- try (parseNumber amountUsdc 6);;
  approveUsdc amount;;
  hash <- await (writeContract HIVEMIND_ADDRESS
                   (Abi.fundProject (BigInt projectId) amount));;
  _ <- await (waitForTransactionReceipt hash);;
  Ret hash.

Definition recordContribution (projectId : Z) (agentAddress : Address)
  (percentage : Z) : Prog Hash :=
  hash <- await (writeContract HIVEMIND_ADDRESS
                   (Abi.recordContribution (BigInt projectId) agentAddress
                      (BigInt percentage)));;
  _ <- await (waitForTransactionReceipt hash);;
  Ret hash.

Definition completeProject (projectId : Z) : Prog Hash :=
  hash <- await (writeContract HIVEMIND_ADDRESS
                   (Abi.completeProject (BigInt projectId)));;
  _ <- await (waitForTransactionReceipt hash);;
  Ret hash.

Definition claimRewards (projectId : Z) : Prog Hash :=
  hash <- await (writeContract HIVEMIND_ADDRESS
                   (Abi.claimRewards (BigInt projectId)));;
  _ <- await (waitForTransactionReceipt hash);;
  Ret hash.

End Methods.

End Standalone.

(** ** Running a script against a chain *)

(** A chain: its states and how it answers a request.  The answer may be
    a rejection, and the state may move on either way; other accounts'
    activity is whatever the handler makes of it. *)
Record Chain := {
  World : Type;
  handle : forall q : Request, World -> Result (Response q) * World
}.

(** One entry of the log: a request and how it settled. *)
Inductive Event : Type :=
| Ev (q : Request) (reply : Result (Response q)).

Definition request (e : Event) : Request :=
  match e with Ev q _ => q end.

Definition requests (tr : list Event) : list Request := map request tr.

Inductive Outcome (W R : Type) : Type :=
| Fulfilled (r : R) (w : W)
| Rejected (e : Error) (w : W).
Arguments Fulfilled {W R} r w.
Arguments Rejected {W R} e w.

Fixpoint run (c : Chain) {R : Type} (p : Prog R) (w : World c)
  : list Event * Outcome (World c) R :=
  match p with
  | Ret r => ([], Fulfilled r w)
  | Throw e => ([], Rejected e w)
  | Await q k =>
      match handle c q w with
      | (Ok x, w1) =>
          let (tr, o) := run c (k x) w1 in (Ev q (Ok x) :: tr, o)
      | (Err e, w1) => ([Ev q (Err e)], Rejected e w1)
      end
  | AwaitBoth q1 q2 k =>
      let (r1, w1) := handle c q1 w in
      let (r2, w2) := handle c q2 w1 in
      match r1, r2 with
      | Ok x, Ok y =>
          let (tr, o) := run c (k x y) w2 in
          (Ev q1 r1 :: Ev q2 r2 :: tr, o)
      | Err e, _ => ([Ev q1 r1; Ev q2 r2], Rejected e w2)
      | Ok _, Err e => ([Ev q1 r1; Ev q2 r2], Rejected e w2)
      end
  end.

(** Starting an asynchronous call: its body runs up to its first
    [await], which issues the request; what is left is the continuation
    on the reply, or the rejection. *)
Definition launch (c : Chain) {A : Type} (p : Prog A) (w : World c)
  : list Event * Result (Prog A) * World c :=
  match p with
  | Ret a => ([], Ok (Ret a), w)
  | Throw e => ([], Err e, w)
  | Await q k =>
      match handle c q w with
      | (Ok x, w1) => ([Ev q (Ok x)], Ok (k x), w1)
      | (Err e, w1) => ([Ev q (Err e)], Err e, w1)
      end
  | AwaitBoth q1 q2 k =>
      let (r1, w1) := handle c q1 w in
      let (r2, w2) := handle c q2 w1 in
      match r1, r2 with
      | Ok x, Ok y => ([Ev q1 r1; Ev q2 r2], Ok (k x y), w2)
      | Err e, _ => ([Ev q1 r1; Ev q2 r2], Err e, w2)
      | Ok _, Err e => ([Ev q1 r1; Ev q2 r2], Err e, w2)
      end
  end.

(** [Promise.all] of three calls: all three are started whatever the
    earlier ones answer; the replies are then taken in the order the
    calls were started, and the first rejection among them rejects the
    whole. *)
Definition runAll3 (c : Chain) {A B C : Type} (p1 : Prog A) (p2 : Prog B)
  (p3 : Prog C) (w : World c)
  : list Event * Outcome (World c) (A * B * C) :=
  let '(t1, s1, w1) := launch c p1 w in
  let '(t2, s2, w2) := launch c p2 w1 in
  let '(t3, s3, w3) := launch c p3 w2 in
  match s1, s2, s3 with
  | Ok k1, Ok k2, Ok k3 =>
      match run c k1 w3 with
      | (u1, Fulfilled a wa) =>
          match run c k2 wa with
          | (u2, Fulfilled b wb) =>
              match run c k3 wb with
              | (u3, Fulfilled x wc) =>
                  (t1 ++ t2 ++ t3 ++ u1 ++ u2 ++ u3, Fulfilled (a, b, x) wc)
              | (u3, Rejected e wc) =>
                  (t1 ++ t2 ++ t3 ++ u1 ++ u2 ++ u3, Rejected e wc)
              end
          | (u2, Rejected e wb) =>
              (t1 ++ t2 ++ t3 ++ u1 ++ u2, Rejected e wb)
          end
      | (u1, Rejected e wa) => (t1 ++ t2 ++ t3 ++ u1, Rejected e wa)
      end
  | Err e, _, _ => (t1 ++ t2 ++ t3, Rejected e w3)
  | Ok _, Err e, _ => (t1 ++ t2 ++ t3, Rejected e w3)
  | Ok _, Ok _, Err e => (t1 ++ t2 ++ t3, Rejected e w3)
  end.

Definition runTask (c : Chain) {R : Type} (t : Task R) (w : World c)
  : list Event * Outcome (World c) R :=
  match t with
  | Plain p => run c p w
  | PromiseAll3 p1 p2 p3 k =>
      match runAll3 c p1 p2 p3 w with
      | (tr, Fulfilled (a, b, x) w') => (tr, Fulfilled (k a b x) w')
      | (tr, Rejected e w') => (tr, Rejected e w')
      end
  end.

(** What a read would answer in state [w]. *)
Definition observe (c : Chain) (q : Request) (w : World c)
  : Result (Response q) :=
  fst (handle c q w).

(** A log in which no request was rejected. *)
Definition answered (tr : list Event) : bool :=
  forallb (fun e => match e with
                    | Ev _ (Ok _) => true
                    | Ev _ (Err _) => false
                    end) tr.


Definition isApprove (q : Request) : bool :=
  match q with
  | writeContract _ (Abi.approve _ _) => true
  | _ => false
  end.

(** A transaction sent to do the operation's own work. *)
Definition isPrimary (q : Request) : bool :=
  match q with
  | writeContract _ (Abi.approve _ _) => false
  | writeContract _ _ => true
  | _ => false
  end.

(** The authorization transactions a log contains. *)
Definition approvals (tr : list Event) : list Request :=
  filter isApprove (requests tr).

(** ** The allowance sub-protocol and the operations that use it *)

(** The fixed ceiling, in smallest units. *)
Definition CEILING : Z := 10 ^ 12.

Definition allowanceRead (token owner spender : Address) : Request :=
  readContract token (Abi.allowance owner spender).

Definition approveTx (token spender : Address) : Request :=
  writeContract token (Abi.approve spender CEILING).

(** The private helper of either client, by the addresses it uses. *)
Inductive approval_step
  : Prog unit -> Address -> Address -> Address -> Z -> Prop :=
| step_ensureApproval (this : Client.HiveMind) (amount : Z) :
    approval_step (Client.ensureApproval this amount)
      (Client.usdcAddress this) (Client.address this)
      (Client.hivemindAddress this) amount
| step_approveUsdc (this : Standalone.HiveMind) (amount : Z) :
    approval_step (Standalone.approveUsdc this amount)
      Standalone.USDC_ADDRESS (Standalone.address this)
      Standalone.HIVEMIND_ADDRESS amount.

(** The funding-bearing writes: the script, the authorization step it
    runs first with the addresses that step uses (token, owner, spender),
    the amount about to be spent and the primary transaction.  The
    amount is the parse of the argument, which has to succeed for the
    script to get that far.  [join] (and, in [Client], [createProject])
    authorizes only a positive amount. *)
Inductive funding_write
  : forall R : Type, Prog R -> Prog unit -> Address -> Address -> Address ->
                     Z -> Request -> Prop :=
| fw_join (this : Client.HiveMind) (nodeId : string)
    (creditsToPool : option Q) (amount : Z) :
    parseNumber (nullish creditsToPool 0%Q) Constants.USDC_DECIMALS
    = Ok amount ->
    amount > 0 ->
    funding_write TxResult.t (Client.join this nodeId creditsToPool)
      (Client.ensureApproval this amount)
      (Client.usdcAddress this) (Client.address this)
      (Client.hivemindAddress this) amount
      (writeContract (Client.hivemindAddress this)
         (Abi.joinHive nodeId amount))
| fw_createProject (this : Client.HiveMind)
    (options : CreateProjectOptions.t) (amount : Z) :
    parseNumber (CreateProjectOptions.funding options)
      Constants.USDC_DECIMALS = Ok amount ->
    amount > 0 ->
    funding_write Client.ProjectTxResult (Client.createProject this options)
      (Client.ensureApproval this amount)
      (Client.usdcAddress this) (Client.address this)
      (Client.hivemindAddress this) amount
      (writeContract (Client.hivemindAddress this)
         (Abi.createProject (CreateProjectOptions.name options)
            (CreateProjectOptions.repoUrl options) amount))
| fw_fundProject (this : Client.HiveMind) (projectId : Z) (amount : Q)
    (parsed : Z) :
    parseNumber amount Constants.USDC_DECIMALS = Ok parsed ->
    funding_write TxResult.t (Client.fundProject this projectId amount)
      (Client.ensureApproval this parsed)
      (Client.usdcAddress this) (Client.address this)
      (Client.hivemindAddress this) parsed
      (writeContract (Client.hivemindAddress this)
         (Abi.fundProject (BigInt projectId) parsed))
| fw_standalone_join (this : Standalone.HiveMind) (nodeId : string)
    (creditsToPool : option Q) (amount : Z) :
    parseNumber (nullish creditsToPool 0%Q) 6 = Ok amount ->
    amount > 0 ->
    funding_write Hash (Standalone.join this nodeId creditsToPool)
      (Standalone.approveUsdc this amount)
      Standalone.USDC_ADDRESS (Standalone.address this)
      Standalone.HIVEMIND_ADDRESS amount
      (writeContract Standalone.HIVEMIND_ADDRESS
         (Abi.joinHive nodeId amount))
| fw_standalone_createProject (this : Standalone.HiveMind)
    (name repoUrl : string) (fundingUsdc : Q) (amount : Z) :
    parseNumber fundingUsdc 6 = Ok amount ->
    funding_write Standalone.CreatedProject
      (Standalone.createProject this name repoUrl fundingUsdc)
      (Standalone.approveUsdc this amount)
      Standalone.USDC_ADDRESS (Standalone.address this)
      Standalone.HIVEMIND_ADDRESS amount
      (writeContract Standalone.HIVEMIND_ADDRESS
         (Abi.createProject name repoUrl amount))
| fw_standalone_fundProject (this : Standalone.HiveMind) (projectId : Z)
    (amountUsdc : Q) (amount : Z) :
    parseNumber amountUsdc 6 = Ok amount ->
    funding_write Hash (Standalone.fundProject this projectId amountUsdc)
      (Standalone.approveUsdc this amount)
      Standalone.USDC_ADDRESS (Standalone.address this)
      Standalone.HIVEMIND_ADDRESS amount
      (writeContract Standalone.HIVEMIND_ADDRESS
         (Abi.fundProject (BigInt projectId) amount)).

(** The six write operations of [Client], each with its primary
    transaction (contract and call) and the [TxResult] part of what it returns. *)
Inductive write_operation
  : forall R : Type,
    Prog R -> Address -> Abi.WriteFn -> (R -> TxResult.t) -> Prop :=
| wo_join (this : Client.HiveMind) nodeId creditsToPool :
    write_operation TxResult.t (Client.join this nodeId creditsToPool)
      (Client.hivemindAddress this)
      (Abi.joinHive nodeId
         (parseUnits (nullish creditsToPool 0%Q)
            Constants.USDC_DECIMALS))
      (fun r => r)
| wo_createProject (this : Client.HiveMind) options :
    write_operation Client.ProjectTxResult
      (Client.createProject this options)
      (Client.hivemindAddress this)
      (Abi.createProject (CreateProjectOptions.name options)
         (CreateProjectOptions.repoUrl options)
         (parseUnits (CreateProjectOptions.funding options)
            Constants.USDC_DECIMALS))
      Client.txResult
| wo_fundProject (this : Client.HiveMind) projectId amount :
    write_operation TxResult.t (Client.fundProject this projectId amount)
      (Client.hivemindAddress this)
      (Abi.fundProject (BigInt projectId)
         (parseUnits amount Constants.USDC_DECIMALS))
      (fun r => r)
| wo_recordContribution (this : Client.HiveMind) projectId agent percentage :
    write_operation TxResult.t
      (Client.recordContribution this projectId agent percentage)
      (Client.hivemindAddress this)
      (Abi.recordContribution (BigInt projectId) agent
         (BigInt percentage))
      (fun r => r)
| wo_completeProject (this : Client.HiveMind) projectId :
    write_operation TxResult.t (Client.completeProject this projectId)
      (Client.hivemindAddress this)
      (Abi.completeProject (BigInt projectId))
      (fun r => r)
| wo_claimRewards (this : Client.HiveMind) projectId :
    write_operation TxResult.t (Client.claimRewards this projectId)
      (Client.hivemindAddress this)
      (Abi.claimRewards (BigInt projectId))
      (fun r => r).

(** The same six in [Standalone], with the hash each returns. *)
Inductive standalone_write_operation
  : forall R : Type,
    Prog R -> Address -> Abi.WriteFn -> (R -> Hash) -> Prop :=
| swo_join (this : Standalone.HiveMind) nodeId creditsToPool :
    standalone_write_operation Hash
      (Standalone.join this nodeId creditsToPool)
      Standalone.HIVEMIND_ADDRESS
      (Abi.joinHive nodeId (parseUnits (nullish creditsToPool 0%Q) 6))
      (fun r => r)
| swo_createProject (this : Standalone.HiveMind) name repoUrl fundingUsdc :
    standalone_write_operation Standalone.CreatedProject
      (Standalone.createProject this name repoUrl fundingUsdc)
      Standalone.HIVEMIND_ADDRESS
      (Abi.createProject name repoUrl (parseUnits fundingUsdc 6))
      Standalone.hash
| swo_fundProject (this : Standalone.HiveMind) projectId amountUsdc :
    standalone_write_operation Hash
      (Standalone.fundProject this projectId amountUsdc)
      Standalone.HIVEMIND_ADDRESS
      (Abi.fundProject (BigInt projectId) (parseUnits amountUsdc 6))
      (fun r => r)
| swo_recordContribution projectId agentAddress percentage :
    standalone_write_operation Hash
      (Standalone.recordContribution projectId agentAddress percentage)
      Standalone.HIVEMIND_ADDRESS
      (Abi.recordContribution (BigInt projectId) agentAddress
         (BigInt percentage))
      (fun r => r)
| swo_completeProject projectId :
    standalone_write_operation Hash (Standalone.completeProject projectId)
      Standalone.HIVEMIND_ADDRESS
      (Abi.completeProject (BigInt projectId))
      (fun r => r)
| swo_claimRewards projectId :
    standalone_write_operation Hash (Standalone.claimRewards projectId)
      Standalone.HIVEMIND_ADDRESS
      (Abi.claimRewards (BigInt projectId))
      (fun r => r).

(** The record either client builds from the [agents] tuple. *)
Definition agentRecord (result : AgentsOutput) : Agent.t :=
  {| Agent.wallet := out_wallet result;
     Agent.nodeId := out_nodeId result;
     Agent.creditsContributed := out_creditsContributed result;
     Agent.computeScore := out_computeScore result;
     Agent.joinedAt := newDate (times (Number (out_joinedAt result)) 1000);
     Agent.active := out_active result |}.

(** A decimal value with at most [d] fractional digits. *)
Definition fractionalDigitsAtMost (d : nat) (x : Q) : Prop :=
  exists m : Z, x == inject_Z m / inject_Z (10 ^ Z.of_nat d).

(** What the token contract is taken to guarantee about [owner]'s
    allowance towards [spender], [owner] being the signer: reading it
    does not change it, and a confirmed [approve] sets it. *)
Definition erc20_allowance (c : Chain) (token owner spender : Address)
  : Prop :=
  (forall (w w1 : World c) (a : Z),
      handle c (allowanceRead token owner spender) w = (Ok a, w1) ->
      observe c (allowanceRead token owner spender) w1 = Ok a) /\
  (forall (w w1 w2 : World c) (v : Z) (h : Hash) (rc : Receipt),
      handle c (writeContract token (Abi.approve spender v)) w
      = (Ok h, w1) ->
      handle c (waitForTransactionReceipt h) w1 = (Ok rc, w2) ->
      observe c (allowanceRead token owner spender) w2 = Ok v).

(** Project creation in either client, for a funding that parses: the
    script, what it runs before the creation transaction, the ledger it
    talks to, the call it submits, and the id it returns. *)
Inductive project_creation
  : forall R : Type,
    Prog R -> Prog unit -> Address -> Abi.WriteFn -> (R -> Z) -> Prop :=
| pc_client (this : Client.HiveMind) (options : CreateProjectOptions.t)
    (amount : Z) :
    parseNumber (CreateProjectOptions.funding options)
      Constants.USDC_DECIMALS = Ok amount ->
    project_creation Client.ProjectTxResult
      (Client.createProject this options)
      (if amount >? 0 then Client.ensureApproval this amount else Ret tt)
      (Client.hivemindAddress this)
      (Abi.createProject (CreateProjectOptions.name options)
         (CreateProjectOptions.repoUrl options) amount)
      Client.projectId
| pc_standalone (this : Standalone.HiveMind) (name repoUrl : string)
    (fundingUsdc : Q) (amount : Z) :
    parseNumber fundingUsdc 6 = Ok amount ->
    project_creation Standalone.CreatedProject
      (Standalone.createProject this name repoUrl fundingUsdc)
      (Standalone.approveUsdc this amount)
      Standalone.HIVEMIND_ADDRESS
      (Abi.createProject name repoUrl amount)
      Standalone.projectId.

(** ** A reference chain

    An executable chain to run the client against: an ERC-20 style token
    that keeps allowances and balances, and a small ledger that keeps
    agents and an append-only project list.  A transaction takes effect
    when it is submitted and is mined in the next block;
    [waitForTransactionReceipt] reports the newest block.  The real ledger
    is opaque; this one only has to answer with the right shapes. *)

Module Sim.

Record State := {
  allowances : list (Address * Address * Z);
  balances : list (Address * Z);
  agents : list AgentsOutput;
  projects : list (ProjectsOutput * list Address);
  pooled : Z;
  block : Z;
  nonce : nat
}.

Definition lookupAllowance (owner spender : Address)
  (l : list (Address * Address * Z)) : Z :=
  match find (fun e => (fst (fst e) =? owner)%string
                       && (snd (fst e) =? spender)%string) l with
  | Some e => snd e
  | None => 0
  end.

Definition lookupBalance (a : Address) (l : list (Address * Z)) : Z :=
  match find (fun e => (fst e =? a)%string) l with
  | Some e => snd e
  | None => 0
  end.

Definition noAgent : AgentsOutput :=
  {| out_wallet := "0x0000000000000000000000000000000000000000";
     out_nodeId := "";
     out_creditsContributed := 0;
     out_computeScore := 0;
     out_joinedAt := 0;
     out_active := false |}.

Definition lookupAgent (a : Address) (l : list AgentsOutput) : AgentsOutput :=
  match find (fun e => (out_wallet e =? a)%string) l with
  | Some e => e
  | None => noAgent
  end.

(** The hash of the signer's next transaction. *)
Definition txHash (s : State) : Hash :=
  ("0x" ++ DecimalString.NilZero.string_of_uint
             (Nat.to_uint (nonce s)))%string.

Definition mined (s : State) : State :=
  {| allowances := allowances s; balances := balances s;
     agents := agents s; projects := projects s; pooled := pooled s;
     block := block s + 1; nonce := S (nonce s) |}.


Definition setAllowance (owner spender : Address) (v : Z) (s : State)
  : State :=
  {| allowances := (owner, spender, v) :: allowances s;
     balances := balances s; agents := agents s; projects := projects s;
     pooled := pooled s; block := block s; nonce := nonce s |}.

Definition setProjects (ps : list (ProjectsOutput * list Address))
  (s : State) : State :=
  {| allowances := allowances s; balances := balances s;
     agents := agents s; projects := ps; pooled := pooled s;
     block := block s; nonce := nonce s |}.

Definition addAgent (a : AgentsOutput) (s : State) : State :=
  {| allowances := allowances s; balances := balances s;
     agents := a :: agents s; projects := projects s;
     pooled := pooled s + out_creditsContributed a; block := block s;
     nonce := nonce s |}.

Fixpoint updateNth {A : Type} (n : nat) (f : A -> A) (l : list A) : list A :=
  match l, n with
  | [], _ => []
  | x :: r, O => f x :: r
  | x :: r, S m => x :: updateNth m f r
  end.

Section Handler.

(** The account that signs, and where the two contracts live. *)
Variables sender ledger token : Address.

Definition spend (v : Z) (s : State) : Result State :=
  let a := lookupAllowance sender ledger (allowances s) in
  if a <? v then Err "ERC20: transfer amount exceeds allowance"
  else Ok (setAllowance sender ledger (a - v) s).

Definition read (address : Address) (f : Abi.ReadFn) (s : State)
  : Result (Abi.ReadOut f) :=
  match f as f0 return Result (Abi.ReadOut f0) with
  | Abi.balanceOf a =>
      if (address =? token)%string then Ok (lookupBalance a (balances s))
      else Err "execution reverted"
  | Abi.allowance o sp =>
      if (address =? token)%string
      then Ok (lookupAllowance o sp (allowances s))
      else Err "execution reverted"
  | Abi.agents a =>
      if (address =? ledger)%string then Ok (lookupAgent a (agents s))
      else Err "execution reverted"
  | Abi.projects i =>
      match index (projects s) i with
      | Some p =>
          if (address =? ledger)%string then Ok (fst p)
          else Err "execution reverted"
      | None => Err "execution reverted"
      end
  | Abi.getContributors i =>
      match index (projects s) i with
      | Some p =>
          if (address =? ledger)%string then Ok (snd p)
          else Err "execution reverted"
      | None => Err "execution reverted"
      end
  | Abi.contributions _ _ =>
      if (address =? ledger)%string
      then Ok {| out_percentage := 0; out_claimed := false |}
      else Err "execution reverted"
  | Abi.getAgentCount =>
      if (address =? ledger)%string
      then Ok (Z.of_nat (List.length (agents s)))
      else Err "execution reverted"
  | Abi.projectCount =>
      if (address =? ledger)%string
      then Ok (Z.of_nat (List.length (projects s)))
      else Err "execution reverted"
  | Abi.totalCreditsPooled =>
      if (address =? ledger)%string then Ok (pooled s)
      else Err "execution reverted"
  end.

Definition ledgerWrite (f : Abi.WriteFn) (s : State) : Result State :=
  match f with
  | Abi.joinHive nodeId credits =>
      match spend credits s with
      | Ok s1 =>
          Ok (addAgent {| out_wallet := sender; out_nodeId := nodeId;
                          out_creditsContributed := credits;
                          out_computeScore := 0;
                          out_joinedAt := block s + 1;
                          out_active := true |} s1)
      | Err e => Err e
      end
  | Abi.createProject name repoUrl funding =>
      match spend funding s with
      | Ok s1 =>
          Ok (setProjects
                (projects s1 ++
                 [({| out_name := name; out_repoUrl := repoUrl;
                      out_creator := sender; out_totalFunding := funding;
                      out_createdAt := block s + 1;
                      out_status := 0 |}, [])]) s1)
      | Err e => Err e
      end
  | Abi.fundProject i amount =>
      match index (projects s) i, spend amount s with
      | Some _, Ok s1 =>
          Ok (setProjects
                (updateNth (Z.to_nat i)
                   (fun p =>
                      ({| out_name := out_name (fst p);
                          out_repoUrl := out_repoUrl (fst p);
                          out_creator := out_creator (fst p);
                          out_totalFunding :=
                            out_totalFunding (fst p) + amount;
                          out_createdAt := out_createdAt (fst p);
                          out_status := out_status (fst p) |}, snd p))
                   (projects s1)) s1)
      | None, _ => Err "execution reverted"
      | _, Err e => Err e
      end
  | Abi.recordContribution i a _ =>
      match index (projects s) i with
      | Some _ =>
          Ok (setProjects
                (updateNth (Z.to_nat i) (fun p => (fst p, a :: snd p))
                   (projects s)) s)
      | None => Err "execution reverted"
      end
  | Abi.completeProject i =>
      match index (projects s) i with
      | Some _ =>
          Ok (setProjects
                (updateNth (Z.to_nat i)
                   (fun p =>
                      ({| out_name := out_name (fst p);
                          out_repoUrl := out_repoUrl (fst p);
                          out_creator := out_creator (fst p);
                          out_totalFunding := out_totalFunding (fst p);
                          out_createdAt := out_createdAt (fst p);
                          out_status := 1 |}, snd p))
                   (projects s)) s)
      | None => Err "execution reverted"
      end
  | Abi.claimRewards i =>
      match index (projects s) i with
      | Some _ => Ok s
      | None => Err "execution reverted"
      end
  | Abi.approve _ _ => Err "execution reverted"
  end.

Definition write (address : Address) (f : Abi.WriteFn) (s : State)
  : Result Hash * State :=
  match f with
  | Abi.approve spender v =>
      if (address =? token)%string
      then (Ok (txHash s), mined (setAllowance sender spender v s))
      else (Err "execution reverted", s)
  | _ =>
      if (address =? ledger)%string then
        match ledgerWrite f s with
        | Ok s1 => (Ok (txHash s), mined s1)
        | Err e => (Err e, s)
        end
      else (Err "execution reverted", s)
  end.

Definition handler (q : Request) (s : State)
  : Result (Response q) * State :=
  match q as q0 return Result (Response q0) * State with
  | readContract address f => (read address f s, s)
  | writeContract address f => write address f s
  | waitForTransactionReceipt _ =>
      (Ok {| receipt_blockNumber := block s |}, s)
  end.

Definition chain : Chain := {| World := State; handle := handler |}.

(** The same chain behind a node whose reads time out from block
    [limit] on; transactions and receipts still go through. *)
Definition outageHandler (limit : Z) (q : Request) (s : State)
  : Result (Response q) * State :=
  match q as q0 return Result (Response q0) * State with
  | readContract address f =>
      if limit <=? block s then (Err "request timed out", s)
      else (read address f s, s)
  | writeContract address f => write address f s
  | waitForTransactionReceipt _ =>
      (Ok {| receipt_blockNumber := block s |}, s)
  end.

Definition outage (limit : Z) : Chain :=
  {| World := State; handle := outageHandler limit |}.

(** The same chain on a ledger that already holds [older] projects
    besides the listed ones: they are counted, not listed. *)
Definition seasonedHandler (older : Z) (q : Request) (s : State)
  : Result (Response q) * State :=
  match q as q0 return Result (Response q0) * State with
  | readContract address f =>
      match f as f0 return Result (Abi.ReadOut f0) * State with
      | Abi.projectCount =>
          if (address =? ledger)%string
          then (Ok (older + Z.of_nat (List.length (projects s))), s)
          else (Err "execution reverted", s)
      | f0 => (read address f0 s, s)
      end
  | writeContract address f => write address f s
  | waitForTransactionReceipt _ =>
      (Ok {| receipt_blockNumber := block s |}, s)
  end.

Definition seasoned (older : Z) : Chain :=
  {| World := State; handle := seasonedHandler older |}.

End Handler.

End Sim.

(** ** Scenarios on the reference chain *)

Module Scenario.

(** A stand-in for viem's derivation: it insists on a prefixed key of 64
    hex digits and names the account after the key. *)
Definition privateKeyToAccount (pk : string) : Result PrivateKeyAccount :=
  if startsWith pk "0x" && isHex (substring 2 64 pk)
     && (String.length pk =? 66)%nat
  then Ok {| account_address := ("0x" ++ substring 26 40 pk)%string |}
  else Err "invalid private key".

Definition key : string :=
  "0000000000000000000000000000000000000000000000000000000000000001".

Definition alice : PrivateKeyAccount :=
  {| account_address := "0x0000000000000000000000000000000000000001" |}.

Definition bob : Address := "0x00000000000000000000000000000000000000b0".

Definition client : Client.HiveMind :=
  {| Client.publicClient :=
       {| Client.public_chain := base;
          Client.public_transport := "https://mainnet.base.org" |};
     Client.walletClient :=
       {| Client.wallet_account := alice; Client.wallet_chain := base;
          Client.wallet_transport := "https://mainnet.base.org" |};
     Client.account := alice;
     Client.chain := base;
     Client.viemChain := base;
     Client.hivemindAddress := Constants.hivemind (Constants.CONTRACTS base);
     Client.usdcAddress := Constants.usdc (Constants.CONTRACTS base) |}.

Definition standalone : Standalone.HiveMind :=
  {| Standalone.publicClient :=
       {| Standalone.public_chain := base;
          Standalone.public_transport := "https://mainnet.base.org" |};
     Standalone.walletClient :=
       {| Standalone.wallet_account := alice;
          Standalone.wallet_chain := base;
          Standalone.wallet_transport := "https://mainnet.base.org" |};
     Standalone.account := alice |}.

(** Base mainnet, with [alice] signing. *)
Definition mainnet : Chain :=
  Sim.chain (account_address alice) Standalone.HIVEMIND_ADDRESS
    Standalone.USDC_ADDRESS.

(** A registered agent that has since been switched off. *)
Definition retired : AgentsOutput :=
  {| out_wallet := bob; out_nodeId := "bob-node";
     out_creditsContributed := 0; out_computeScore := 0;
     out_joinedAt := 1700000000; out_active := false |}.

Definition hivemindSdk : ProjectsOutput :=
  {| out_name := "HiveMind SDK TypeScript Library";
     out_repoUrl := "https://github.com/minduploadedcrustacean/hivemind-sdk";
     out_creator := bob; out_totalFunding := 10000000;
     out_createdAt := 1700000100; out_status := 0 |}.

Definition openclaw : ProjectsOutput :=
  {| out_name := "HiveMind OpenClaw Integration SDK";
     out_repoUrl := "https://github.com/minduploadedcrustacean/hivemind-sdk";
     out_creator := bob; out_totalFunding := 12000000;
     out_createdAt := 1700000200; out_status := 1 |}.

(** Two projects, one retired agent, [alice] holding 2.5 USDC and no
    allowance granted yet. *)
Definition genesis : Sim.State :=
  {| Sim.allowances := [];
     Sim.balances := [(account_address alice, 2500000)];
     Sim.agents := [retired];
     Sim.projects := [(hivemindSdk, []); (openclaw, [bob])];
     Sim.pooled := 0;
     Sim.block := 100;
     Sim.nonce := 7 |}.

(** The same state with an allowance already granted. *)
Definition granted (v : Z) : Sim.State :=
  Sim.setAllowance (account_address alice) Standalone.HIVEMIND_ADDRESS v
    genesis.


(** Base mainnet through a node that stops answering reads at block
    102. *)
Definition failing : Chain :=
  Sim.outage (account_address alice) Standalone.HIVEMIND_ADDRESS
    Standalone.USDC_ADDRESS 102.

(** Base mainnet once the ledger holds 2^53 projects, the two of
    [genesis] included. *)
Definition crowded : Chain :=
  Sim.seasoned (account_address alice) Standalone.HIVEMIND_ADDRESS
    Standalone.USDC_ADDRESS (2 ^ 53 - 2).

End Scenario.

(** ** Families of operations used by the further properties *)

Definition isRead (q : Request) : bool :=
  match q with
  | readContract _ _ => true
  | _ => false
  end.

Definition isTransaction (q : Request) : bool :=
  match q with
  | writeContract _ _ => true
  | _ => false
  end.

(** The contract a request is addressed to, if any. *)
Definition target (q : Request) : option Address :=
  match q with
  | readContract a _ => Some a
  | writeContract a _ => Some a
  | waitForTransactionReceipt _ => None
  end.

Definition touches (a : Address) (q : Request) : bool :=
  match target q with
  | Some b => (a =? b)%string
  | None => false
  end.

(** The read methods of both clients. *)
Inductive read_operation : forall R : Type, Task R -> Prop :=
| ro_getUsdcBalance (this : Client.HiveMind) a :
    read_operation Q (Plain (Client.getUsdcBalance this a))
| ro_getAgent (this : Client.HiveMind) a :
    read_operation (option Agent.t) (Plain (Client.getAgent this a))
| ro_getProject (this : Client.HiveMind) i :
    read_operation Project.t (Plain (Client.getProject this i))
| ro_getContribution (this : Client.HiveMind) i a :
    read_operation Contribution.t (Plain (Client.getContribution this i a))
| ro_getProjectCount (this : Client.HiveMind) :
    read_operation Z (Plain (Client.getProjectCount this))
| ro_getAgentCount (this : Client.HiveMind) :
    read_operation Z (Plain (Client.getAgentCount this))
| ro_getTotalCreditsPooled (this : Client.HiveMind) :
    read_operation Q (Plain (Client.getTotalCreditsPooled this))
| ro_getHiveStats (this : Client.HiveMind) :
    read_operation Client.HiveStats.t (Client.getHiveStats this)
| ro_standalone_getStats :
    read_operation Standalone.HiveStats.t Standalone.getStats
| ro_standalone_getAgent a :
    read_operation (option Agent.t) (Plain (Standalone.getAgent a))
| ro_standalone_getProject i :
    read_operation Standalone.Project.t (Plain (Standalone.getProject i))
| ro_standalone_getUsdcBalance (this : Standalone.HiveMind) a :
    read_operation Z (Plain (Standalone.getUsdcBalance this a)).


(** A [Client] and a [Standalone] that talk to the same contracts from
    the same wallet. *)
Definition aligned (this : Client.HiveMind) (alone : Standalone.HiveMind)
  : Prop :=
  Client.hivemindAddress this = Standalone.HIVEMIND_ADDRESS /\
  Client.usdcAddress this = Standalone.USDC_ADDRESS /\
  Client.address this = Standalone.address alone.

Definition mapOutcome {W A B : Type} (f : A -> B) (o : Outcome W A)
  : Outcome W B :=
  match o with
  | Fulfilled a w => Fulfilled (f a) w
  | Rejected e w => Rejected e w
  end.

(** A [Client] project as [Standalone] would present it. *)
Definition asStandaloneProject (p : Project.t) : Standalone.Project.t :=
  {| Standalone.Project.id := Project.id p;
     Standalone.Project.name := Project.name p;
     Standalone.Project.repoUrl := Project.repoUrl p;
     Standalone.Project.creator := Project.creator p;
     Standalone.Project.totalFunding := Project.totalFunding p;
     Standalone.Project.createdAt := Project.createdAt p;
     Standalone.Project.status :=
       index Standalone.statusMap (Project.status p);
     Standalone.Project.contributors := Project.contributors p |}.

Definition asCreatedProject (r : Client.ProjectTxResult)
  : Standalone.CreatedProject :=
  {| Standalone.hash := TxResult.hash (Client.txResult r);
     Standalone.projectId := Client.projectId r |}.

(** The writes of [Client] next to their [Standalone] namesakes, with
    the part of [Client]'s result that [Standalone] returns. *)
Inductive namesake (this : Client.HiveMind) (alone : Standalone.HiveMind)
  : forall R S : Type, Prog R -> Prog S -> (R -> S) -> Prop :=
| ns_join nodeId credits :
    namesake this alone TxResult.t Hash
      (Client.join this nodeId credits)
      (Standalone.join alone nodeId credits) TxResult.hash
| ns_createProject options :
    parseUnits (CreateProjectOptions.funding options)
      Constants.USDC_DECIMALS > 0 ->
    namesake this alone Client.ProjectTxResult Standalone.CreatedProject
      (Client.createProject this options)
      (Standalone.createProject alone
         (CreateProjectOptions.name options)
         (CreateProjectOptions.repoUrl options)
         (CreateProjectOptions.funding options))
      asCreatedProject
| ns_fundProject i amount :
    namesake this alone TxResult.t Hash
      (Client.fundProject this i amount)
      (Standalone.fundProject alone i amount) TxResult.hash
| ns_recordContribution i a pct :
    namesake this alone TxResult.t Hash
      (Client.recordContribution this i a pct)
      (Standalone.recordContribution i a pct) TxResult.hash
| ns_completeProject i :
    namesake this alone TxResult.t Hash
      (Client.completeProject this i)
      (Standalone.completeProject i) TxResult.hash
| ns_claimRewards i :
    namesake this alone TxResult.t Hash
      (Client.claimRewards this i)
      (Standalone.claimRewards i) TxResult.hash.



(** The calls that parse an amount, in both clients, with the [number]
    they parse. *)
Inductive parses_amount : forall R : Type, Prog R -> Q -> Prop :=
| pa_join (this : Client.HiveMind) nodeId credits :
    parses_amount TxResult.t (Client.join this nodeId credits)
      (nullish credits 0%Q)
| pa_createProject (this : Client.HiveMind) options :
    parses_amount Client.ProjectTxResult
      (Client.createProject this options)
      (CreateProjectOptions.funding options)
| pa_fundProject (this : Client.HiveMind) i amount :
    parses_amount TxResult.t (Client.fundProject this i amount) amount
| pa_standalone_join (this : Standalone.HiveMind) nodeId credits :
    parses_amount Hash (Standalone.join this nodeId credits)
      (nullish credits 0%Q)
| pa_standalone_createProject (this : Standalone.HiveMind) name repoUrl
    funding :
    parses_amount Standalone.CreatedProject
      (Standalone.createProject this name repoUrl funding) funding
| pa_standalone_fundProject (this : Standalone.HiveMind) i amount :
    parses_amount Hash (Standalone.fundProject this i amount) amount.

(** ** Proof automation *)



(** Case analysis on every reply a run in the goal depends on. *)
Ltac handles :=
  repeat match goal with
         | |- context [handle ?c ?q ?w] =>
             destruct (handle c q w) as [[? | ?] ?]; simpl
         end.

(** * Properties *)

(** ** client.test.ts, replayed on the reference chain *)

Example test_constructor :
  Client.constructor Scenario.privateKeyToAccount
    {| Client.Config.privateKey := ("0x" ++ Scenario.key)%string;
       Client.Config.chain := Some base;
       Client.Config.rpcUrl := None |}
  = Ok Scenario.client.
Proof. reflexivity. Qed.

Example test_project_count :
  snd (run Scenario.mainnet (Client.getProjectCount Scenario.client)
         Scenario.genesis)
  = Fulfilled 2 Scenario.genesis.
Proof. reflexivity. Qed.

Example test_unknown_agent_is_null :
  snd (run Scenario.mainnet
         (Client.getAgent Scenario.client
            (Some "0x0000000000000000000000000000000000000001"))
         Scenario.genesis)
  = Fulfilled None Scenario.genesis.
Proof. reflexivity. Qed.

Example test_explorer_url :
  Client.getExplorerUrl Scenario.client
    "0x1234567890abcdef1234567890abcdef1234567890abcdef1234567890abcdef"
  = "https://basescan.org/tx/0x1234567890abcdef1234567890abcdef1234567890abcdef1234567890abcdef".
Proof. reflexivity. Qed.

Example test_unknown_project_rejects :
  snd (run Scenario.mainnet (Client.getProject Scenario.client 7)
         Scenario.genesis)
  = Rejected "execution reverted" Scenario.genesis.
Proof. reflexivity. Qed.

(** ** Generic facts about running scripts *)

Section Running.

Variable c : Chain.

Lemma run_bind (A B : Type) (p : Prog A) (f : A -> Prog B) (w : World c) :
  run c (bind p f) w =
  match run c p w with
  | (tr, Fulfilled a w1) =>
      let (tr2, o) := run c (f a) w1 in (tr ++ tr2, o)
  | (tr, Rejected e w1) => (tr, Rejected e w1)
  end.
Proof.
  revert w; induction p as [r | e | q k IH | q1 q2 k IH]; intros w; simpl.
  - destruct (run c (f r) w); reflexivity.
  - reflexivity.
  - destruct (handle c q w) as [[x | e] w1]; [| reflexivity].
    rewrite IH. destruct (run c (k x) w1) as [tr [a w2 | e w2]].
    + destruct (run c (f a) w2); reflexivity.
    + reflexivity.
  - destruct (handle c q1 w) as [[x | e] w1];
      destruct (handle c q2 w1) as [[y | e'] w2]; try reflexivity.
    rewrite IH. destruct (run c (k x y) w2) as [tr [a w3 | e w3]].
    + destruct (run c (f a) w3); reflexivity.
    + reflexivity.
Qed.


(** A script that starts with a request leaves a log. *)
Lemma run_await_logged (R : Type) (q : Request)
  (k : Response q -> Prog R) (w : World c) :
  fst (run c (Await q k) w) <> [].
Proof.
  simpl. destruct (handle c q w) as [[x | e] w1];
    [destruct (run c (k x) w1) |]; discriminate.
Qed.

(** A script whose amount parses goes on with the parsed amount. *)
Lemma try_parsed (B : Type) (n : Q) (d : nat) (amount : Z)
  (f : Z -> Prog B) :
  parseNumber n d = Ok amount ->
  bind (try (parseNumber n d)) f = f amount.
Proof. intros H; rewrite H; reflexivity. Qed.

(** A script whose amount does not parse issues no request. *)
Lemma try_refused (B : Type) (n : Q) (d : nat) (e : Error)
  (f : Z -> Prog B) (w : World c) :
  parseNumber n d = Err e ->
  run c (bind (try (parseNumber n d)) f) w = ([], Rejected e w).
Proof. intros H; rewrite H; reflexivity. Qed.

(** What a successful parse yields. *)
Lemma parseNumber_Ok (n : Q) (d : nat) (amount : Z) :
  parseNumber n d = Ok amount -> amount = parseUnits n d.
Proof.
  unfold parseNumber; destruct (printsAsDecimal n); congruence.
Qed.

(** Integers of at most 53 bits are doubles. *)
Lemma Number_exact (z : Z) : Z.abs z <= 2 ^ 53 -> Number z = z.
Proof.
  intros Hz. unfold Number.
  destruct (Z.eq_dec (Z.abs z) (2 ^ 53)) as [Heq | Hne].
  - destruct (Z.abs_eq_or_opp z) as [H | H]; rewrite H in Heq.
    + subst z; reflexivity.
    + replace z with (- 2 ^ 53) by lia. reflexivity.
  - assert (Hlog : Z.log2 (Z.abs z) < 53).
    { destruct (Z.eq_dec (Z.abs z) 0) as [-> | H0]; [reflexivity |].
      apply Z.log2_lt_pow2; lia. }
    replace (Z.log2 (Z.abs z) - 52 <=? 0) with true
      by (symmetry; apply Z.leb_le; lia).
    reflexivity.
Qed.

Lemma ceiling_parsed :
  parseUnits (1000000 # 1) Constants.USDC_DECIMALS = CEILING.
Proof. reflexivity. Qed.

(** How the authorization step runs, case by case on the replies. *)
Lemma run_approval_step a token owner spender amount (w : World c) :
  approval_step a token owner spender amount ->
  run c a w =
  match handle c (allowanceRead token owner spender) w with
  | (Err e, w1) =>
      ([Ev (allowanceRead token owner spender) (Err e)], Rejected e w1)
  | (Ok al, w1) =>
      if al <? amount then
        match handle c (approveTx token spender) w1 with
        | (Err e, w2) =>
            ([Ev (allowanceRead token owner spender) (Ok al);
              Ev (approveTx token spender) (Err e)], Rejected e w2)
        | (Ok h, w2) =>
            match handle c (waitForTransactionReceipt h) w2 with
            | (Err e, w3) =>
                ([Ev (allowanceRead token owner spender) (Ok al);
                  Ev (approveTx token spender) (Ok h);
                  Ev (waitForTransactionReceipt h) (Err e)], Rejected e w3)
            | (Ok rc, w3) =>
                ([Ev (allowanceRead token owner spender) (Ok al);
                  Ev (approveTx token spender) (Ok h);
                  Ev (waitForTransactionReceipt h) (Ok rc)], Fulfilled tt w3)
            end
        end
      else ([Ev (allowanceRead token owner spender) (Ok al)], Fulfilled tt w1)
  end.
Proof.
  intros [this amt | this amt];
    unfold Client.ensureApproval, Standalone.approveUsdc, allowanceRead,
      approveTx; simpl run.
  - destruct (handle c _ w) as [[al | e] w1]; [| reflexivity].
    destruct (al <? amt); simpl run; [| reflexivity].
    destruct (handle c _ w1) as [[h | e] w2]; [| reflexivity].
    destruct (handle c _ w2) as [[rc | e] w3]; reflexivity.
  - destruct (handle c _ w) as [[al | e] w1]; [| reflexivity].
    destruct (al <? amt); simpl run; [| reflexivity].
    destruct (handle c _ w1) as [[h | e] w2]; [| reflexivity].
    destruct (handle c _ w2) as [[rc | e] w3]; reflexivity.
Qed.

(** A funding-bearing write is its authorization step followed by the
    primary transaction, and the rest of it submits no authorization. *)
Lemma funding_write_shape R p a token owner spender amount primary :
  funding_write R p a token owner spender amount primary ->
  approval_step a token owner spender amount /\
  isPrimary primary = true /\
  exists k : Response primary -> Prog R,
    p = bind a (fun _ => Await primary k) /\
    forall x (w : World c), approvals (fst (run c (k x) w)) = [].
Proof.
  intros H; destruct H as [this nodeId credits amount Hparse Hpos
                          | this options amount Hparse Hpos
                          | this projectId amount0 parsed Hparse
                          | this nodeId credits amount Hparse Hpos
                          | this name repoUrl funding amount Hparse
                          | this projectId amount0 amount Hparse];
    (split; [constructor | split; [reflexivity |]]).
  - unfold Client.join. rewrite (try_parsed _ _ _ _ _ Hparse).
    replace (amount >? 0) with true by (symmetry; apply Z.gtb_lt; lia).
    eexists; split; [reflexivity |].
    intros x w; simpl.
    destruct (handle c _ w) as [[rc | e] w1]; reflexivity.
  - unfold Client.createProject. rewrite (try_parsed _ _ _ _ _ Hparse).
    replace (amount >? 0) with true by (symmetry; apply Z.gtb_lt; lia).
    eexists; split; [reflexivity |].
    intros x w; simpl.
    destruct (handle c _ w) as [[rc | e] w1]; [| reflexivity]. simpl.
    destruct (handle c _ w1) as [[n | e] w2]; reflexivity.
  - unfold Client.fundProject. rewrite (try_parsed _ _ _ _ _ Hparse).
    eexists; split; [reflexivity |].
    intros x w; simpl.
    destruct (handle c _ w) as [[rc | e] w1]; reflexivity.
  - unfold Standalone.join. rewrite (try_parsed _ _ _ _ _ Hparse).
    replace (amount >? 0) with true by (symmetry; apply Z.gtb_lt; lia).
    eexists; split; [reflexivity |].
    intros x w; simpl.
    destruct (handle c _ w) as [[rc | e] w1]; reflexivity.
  - unfold Standalone.createProject. rewrite (try_parsed _ _ _ _ _ Hparse).
    eexists; split; [reflexivity |].
    intros x w; simpl.
    destruct (handle c _ w) as [[rc | e] w1]; [| reflexivity]. simpl.
    destruct (handle c _ w1) as [[n | e] w2]; reflexivity.
  - unfold Standalone.fundProject. rewrite (try_parsed _ _ _ _ _ Hparse).
    eexists; split; [reflexivity |].
    intros x w; simpl.
    destruct (handle c _ w) as [[rc | e] w1]; reflexivity.
Qed.

End Running.


(** And it starts with a request. *)
Ltac logged :=
  unfold Client.ensureApproval, Standalone.approveUsdc;
  repeat match goal with
         | |- context [if ?b then _ else _] => destruct b
         | _ => progress cbn [bind await]
         end;
  apply run_await_logged.


(** ** The allowance sub-protocol *)

(** C1.  For every funding-bearing write (both clients) whose amount
    parses, on every chain and from every state: the first request is
    the read of the caller's allowance towards the ledger.  If that
    allowance is at least the requested amount the log holds no
    [approve] at all and the primary transaction is the very next
    request.  If it is below, the log holds exactly one [approve], for
    the ceiling of 10^12 smallest units (1,000,000 display units); the
    primary transaction is submitted as soon as that [approve] was
    accepted and its receipt awaited and obtained, as the next request;
    and it is submitted in no other position. *)
Theorem allowance_protocol (c : Chain) R p a token owner spender amount
  primary :
  funding_write R p a token owner spender amount primary ->
  forall w : World c,
    let tr := fst (run c p w) in
    CEILING = 1000000 * 10 ^ 6 /\
    hd_error (requests tr) = Some (allowanceRead token owner spender) /\
    forall al : Z,
      observe c (allowanceRead token owner spender) w = Ok al ->
      let w1 := snd (handle c (allowanceRead token owner spender) w) in
      (amount <= al ->
       approvals tr = [] /\
       exists rest,
         tr = Ev (allowanceRead token owner spender) (Ok al)
              :: Ev primary (observe c primary w1) :: rest) /\
      (al < amount ->
       approvals tr = [approveTx token spender] /\
       (forall h w2 rc w3,
           handle c (approveTx token spender) w1 = (Ok h, w2) ->
           handle c (waitForTransactionReceipt h) w2 = (Ok rc, w3) ->
           exists rest,
             tr = Ev (allowanceRead token owner spender) (Ok al)
                  :: Ev (approveTx token spender) (Ok h)
                  :: Ev (waitForTransactionReceipt h) (Ok rc)
                  :: Ev primary (observe c primary w3) :: rest) /\
       (In primary (requests tr) ->
        exists h rc reply rest,
          tr = Ev (allowanceRead token owner spender) (Ok al)
               :: Ev (approveTx token spender) (Ok h)
               :: Ev (waitForTransactionReceipt h) (Ok rc)
               :: Ev primary reply :: rest)).
Proof.
  intros Hfw w tr.
  destruct (funding_write_shape c _ _ _ _ _ _ _ _ Hfw)
    as (Hstep & Hprimary & k & -> & Hk).
  assert (Hprim : isApprove primary = false)
    by (destruct primary as [? ? | ? [] |]; (discriminate || reflexivity)).
  split; [reflexivity |].
  subst tr. rewrite run_bind, (run_approval_step c _ _ _ _ _ w Hstep).
  unfold observe.
  assert (Hneq1 : primary <> allowanceRead token owner spender)
    by (intros ->; discriminate Hprimary).
  assert (Hneq2 : primary <> approveTx token spender)
    by (intros ->; discriminate Hprimary).
  destruct (handle c (allowanceRead token owner spender) w)
    as [[al0 | e] w1]; simpl fst; simpl snd.
  2:{ split; [reflexivity | intros al Hal; discriminate Hal]. }
  destruct (Z.ltb_spec al0 amount) as [Hlt | Hge].
  - destruct (handle c (approveTx token spender) w1) as [[h | e] w2].
    + destruct (handle c (waitForTransactionReceipt h) w2)
        as [[rc | e] w3] eqn:Hw.
      * simpl run.
        destruct (handle c primary w3) as [[x | e] w4] eqn:Hp.
        -- specialize (Hk x w4).
           destruct (run c (k x) w4) as [tr2 o2]. simpl in Hk |- *.
           split; [reflexivity |].
           intros al Hal; injection Hal as <-.
           split; [lia | intros _].
           split; [| split].
           ++ unfold approvals, requests in *. simpl.
              rewrite Hprim. simpl. rewrite Hk. reflexivity.
           ++ intros h' w2' rc' w3' Hh Hr. injection Hh as <- <-.
              rewrite Hw in Hr. injection Hr as <- <-.
              rewrite Hp. exists tr2. reflexivity.
           ++ intros _. exists h, rc, (Ok x), tr2. reflexivity.
        -- simpl. split; [reflexivity |].
           intros al Hal; injection Hal as <-.
           split; [lia | intros _].
           split; [| split].
           ++ unfold approvals, requests. simpl. rewrite Hprim. reflexivity.
           ++ intros h' w2' rc' w3' Hh Hr. injection Hh as <- <-.
              rewrite Hw in Hr. injection Hr as <- <-.
              rewrite Hp. exists []. reflexivity.
           ++ intros _. exists h, rc, (Err e), []. reflexivity.
      * simpl. split; [reflexivity |].
        intros al Hal; injection Hal as <-.
        split; [lia | intros _].
        split; [reflexivity | split].
        -- intros h' w2' rc' w3' Hh Hr. injection Hh as <- <-.
           rewrite Hw in Hr. discriminate Hr.
        -- intros [H | [H | [H | []]]]; try (symmetry in H; contradiction).
           subst primary; discriminate Hprimary.
    + simpl. split; [reflexivity |].
      intros al Hal; injection Hal as <-.
      split; [lia | intros _].
      split; [reflexivity | split].
      * intros h' w2' rc' w3' Hh. discriminate Hh.
      * intros [H | [H | []]]; symmetry in H; contradiction.
  - simpl run.
    destruct (handle c primary w1) as [[x | e] w4] eqn:Hp.
    + specialize (Hk x w4).
      destruct (run c (k x) w4) as [tr2 o2]. simpl in Hk |- *.
      split; [reflexivity |].
      intros al Hal; injection Hal as <-.
      split; [intros _ | lia].
      split; [| exists tr2; reflexivity].
      unfold approvals, requests in *. simpl. rewrite Hprim. exact Hk.
    + simpl. split; [reflexivity |].
      intros al Hal; injection Hal as <-.
      split; [intros _ | lia].
      split; [| exists []; reflexivity].
      unfold approvals, requests. simpl. rewrite Hprim. reflexivity.
Qed.

Lemma allowance_protocol_witness :
  approvals
    (fst (run Scenario.mainnet
            (Client.fundProject Scenario.client 0 (5 # 1))
            Scenario.genesis))
  = [approveTx Standalone.USDC_ADDRESS Standalone.HIVEMIND_ADDRESS].
Proof.
  destruct (allowance_protocol Scenario.mainnet _ _ _ _ _ _ _ _
              (fw_fundProject Scenario.client 0 (5 # 1) 5000000 eq_refl)
              Scenario.genesis)
    as (_ & _ & H).
  destruct (H 0 eq_refl) as [_ H2].
  apply H2. reflexivity.
Defined.

(** ** Project creation *)

(** C2, as amended.  In either client, for a funding that parses, once
    the authorization phase is through and the creation transaction is
    submitted and confirmed, [createProject] reads the project count
    again, after the confirmation, and returns as [projectId] that
    count, as a double, minus 1.  Up to a count of 2^53 this is the
    count minus 1 exactly; so when the count was [N] before the creation
    transaction, with [N] below 2^53, and the re-read gives [N + 1], the
    returned id is [N]. *)
Theorem createProject_infers_id (c : Chain) R p pre ledger fn proj
  (w wa w1 w2 w3 : World c) tra h rc (N n : Z) :
  project_creation R p pre ledger fn proj ->
  run c pre w = (tra, Fulfilled tt wa) ->
  observe c (readContract ledger Abi.projectCount) wa = Ok N ->
  handle c (writeContract ledger fn) wa = (Ok h, w1) ->
  handle c (waitForTransactionReceipt h) w1 = (Ok rc, w2) ->
  handle c (readContract ledger Abi.projectCount) w2 = (Ok n, w3) ->
  exists r : R,
    run c p w =
      (tra ++ [Ev (writeContract ledger fn) (Ok h);
               Ev (waitForTransactionReceipt h) (Ok rc);
               Ev (readContract ledger Abi.projectCount) (Ok n)],
       Fulfilled r w3) /\
    proj r = minus (Number n) 1 /\
    (0 <= n <= 2 ^ 53 -> proj r = n - 1) /\
    (n = N + 1 -> 0 <= N < 2 ^ 53 -> proj r = N).
Proof.
  intros Hpc Hpre _ Hsubmit Hwait Hcount.
  assert (Hexact : 0 <= n <= 2 ^ 53 -> minus (Number n) 1 = n - 1).
  { intros Hn. unfold minus.
    rewrite (Number_exact n) by (apply Z.abs_le; lia).
    apply Number_exact, Z.abs_le; lia. }
  destruct Hpc as [this options amount Hparse
                  | this name repoUrl funding amount Hparse].
  - unfold Client.createProject. rewrite (try_parsed _ _ _ _ _ Hparse).
    rewrite run_bind, Hpre. simpl run.
    rewrite Hsubmit. simpl. rewrite Hwait. simpl. rewrite Hcount.
    eexists; split; [reflexivity |]. cbn [Client.projectId].
    split; [reflexivity | split; [exact Hexact |]].
    intros -> HN. rewrite Hexact; lia.
  - unfold Standalone.createProject. rewrite (try_parsed _ _ _ _ _ Hparse).
    rewrite run_bind, Hpre. simpl run.
    rewrite Hsubmit. simpl. rewrite Hwait. simpl. rewrite Hcount.
    eexists; split; [reflexivity |]. cbn [Standalone.projectId].
    split; [reflexivity | split; [exact Hexact |]].
    intros -> HN. rewrite Hexact; lia.
Qed.

Lemma createProject_infers_id_witness :
  exists r w3,
    run Scenario.mainnet
      (Client.createProject Scenario.client
         {| CreateProjectOptions.name := "Docs";
            CreateProjectOptions.repoUrl := "https://github.com/org/docs";
            CreateProjectOptions.funding := 1 # 1 |})
      Scenario.genesis
    = ([Ev (allowanceRead Standalone.USDC_ADDRESS
              "0x0000000000000000000000000000000000000001"
              Standalone.HIVEMIND_ADDRESS) (Ok 0);
        Ev (approveTx Standalone.USDC_ADDRESS Standalone.HIVEMIND_ADDRESS)
           (Ok "0x7");
        Ev (waitForTransactionReceipt "0x7")
           (Ok {| receipt_blockNumber := 101 |});
        Ev (writeContract Standalone.HIVEMIND_ADDRESS
              (Abi.createProject "Docs" "https://github.com/org/docs"
                 1000000)) (Ok "0x8");
        Ev (waitForTransactionReceipt "0x8")
           (Ok {| receipt_blockNumber := 102 |});
        Ev (readContract Standalone.HIVEMIND_ADDRESS Abi.projectCount)
           (Ok 3)],
       Fulfilled r w3) /\
    Client.projectId r = 2.
Proof.
  assert (H := fun wa w1 w2 w3 tra h rc =>
                 createProject_infers_id Scenario.mainnet _ _ _ _ _ _
                   Scenario.genesis wa w1 w2 w3 tra h rc 2 3
                   (pc_client Scenario.client
                      {| CreateProjectOptions.name := "Docs";
                         CreateProjectOptions.repoUrl :=
                           "https://github.com/org/docs";
                         CreateProjectOptions.funding := 1 # 1 |}
                      1000000 eq_refl)).
  edestruct H as (r & Hrun & _ & _ & HN); [reflexivity .. |].
  exists r; eexists; split; [exact Hrun | apply HN; [reflexivity | lia]].
Defined.

(** C2 as stated fails from a count of 2^53 on.  With 2^53 projects
    before the creation and 2^53 + 1 read back after it, [Number] rounds
    the count to 2^53 and either client returns 2^53 - 1, the id of the
    project before the new one. *)
Lemma createProject_id_rounded :
  observe Scenario.crowded
    (readContract Standalone.HIVEMIND_ADDRESS Abi.projectCount)
    Scenario.genesis
  = Ok 9007199254740992 /\
  (exists w',
      run Scenario.crowded
        (Client.createProject Scenario.client
           {| CreateProjectOptions.name := "Docs";
              CreateProjectOptions.repoUrl := "https://github.com/org/docs";
              CreateProjectOptions.funding := 0 |})
        Scenario.genesis
      = ([Ev (writeContract Standalone.HIVEMIND_ADDRESS
                (Abi.createProject "Docs" "https://github.com/org/docs" 0))
             (Ok "0x7");
          Ev (waitForTransactionReceipt "0x7")
             (Ok {| receipt_blockNumber := 101 |});
          Ev (readContract Standalone.HIVEMIND_ADDRESS Abi.projectCount)
             (Ok 9007199254740993)],
         Fulfilled
           {| Client.projectId := 9007199254740991;
              Client.txResult :=
                {| TxResult.hash := "0x7"; TxResult.blockNumber := 101 |} |}
           w')) /\
  (exists w',
      run Scenario.crowded
        (Standalone.createProject Scenario.standalone
           "Docs" "https://github.com/org/docs" 0)
        Scenario.genesis
      = ([Ev (allowanceRead Standalone.USDC_ADDRESS
                "0x0000000000000000000000000000000000000001"
                Standalone.HIVEMIND_ADDRESS) (Ok 0);
          Ev (writeContract Standalone.HIVEMIND_ADDRESS
                (Abi.createProject "Docs" "https://github.com/org/docs" 0))
             (Ok "0x7");
          Ev (waitForTransactionReceipt "0x7")
             (Ok {| receipt_blockNumber := 101 |});
          Ev (readContract Standalone.HIVEMIND_ADDRESS Abi.projectCount)
             (Ok 9007199254740993)],
         Fulfilled
           {| Standalone.hash := "0x7";
              Standalone.projectId := 9007199254740991 |}
           w')) /\
  9007199254740991 <> 9007199254740992.
Proof.
  split; [reflexivity |].
  split; [| split; [| discriminate]]; eexists; vm_compute; reflexivity.
Qed.

(** ** Agent lookup *)

(** C3, as amended.  Whatever tuple the ledger's [agents] view returns:
    [Client.getAgent] returns null when its join timestamp is zero and
    the record built from it otherwise; [Standalone.getAgent] returns
    null when its active flag is off and the record otherwise.  Hence the
    unregistered default (zero timestamp, inactive) gives null in both
    clients, never a zeroed record, and a registered address (nonzero
    timestamp) gives a record in [Client]. *)
Theorem getAgent_sentinel (c : Chain) (this : Client.HiveMind)
  (address_ : option Address) (address' : Address) (t : AgentsOutput) :
  (forall w w1 : World c,
      handle c (readContract (Client.hivemindAddress this)
                  (Abi.agents (nullish address_ (Client.address this)))) w
      = (Ok t, w1) ->
      exists res,
        snd (run c (Client.getAgent this address_) w) = Fulfilled res w1 /\
        (out_joinedAt t = 0 -> res = None) /\
        (out_joinedAt t <> 0 -> res = Some (agentRecord t))) /\
  (forall w w1 : World c,
      handle c (readContract Standalone.HIVEMIND_ADDRESS
                  (Abi.agents address')) w
      = (Ok t, w1) ->
      exists res,
        snd (run c (Standalone.getAgent address') w) = Fulfilled res w1 /\
        (out_active t = false -> res = None) /\
        (out_active t = true -> res = Some (agentRecord t))).
Proof.
  split; intros w w1 Hread.
  - unfold Client.getAgent. simpl run. rewrite Hread.
    destruct (Z.eqb_spec (out_joinedAt t) 0) as [Hz | Hnz]; simpl.
    + exists None.
      split; [reflexivity | split; [reflexivity | contradiction]].
    + exists (Some (agentRecord t)).
      split; [reflexivity | split; [contradiction | reflexivity]].
  - unfold Standalone.getAgent. simpl run. rewrite Hread.
    destruct t as [wl nid credits score joined [|]]; simpl.
    + eexists.
      split; [reflexivity | split; [discriminate | reflexivity]].
    + exists None.
      split; [reflexivity | split; [reflexivity | discriminate]].
Qed.

Lemma getAgent_sentinel_witness :
  snd (run Scenario.mainnet
         (Client.getAgent Scenario.client (Some Scenario.bob))
         Scenario.genesis)
  = Fulfilled (Some (agentRecord Scenario.retired)) Scenario.genesis /\
  snd (run Scenario.mainnet
         (Client.getAgent Scenario.client None) Scenario.genesis)
  = Fulfilled None Scenario.genesis /\
  snd (run Scenario.mainnet
         (Standalone.getAgent "0x0000000000000000000000000000000000000001")
         Scenario.genesis)
  = Fulfilled None Scenario.genesis.
Proof.
  split; [| split].
  - destruct (proj1 (getAgent_sentinel Scenario.mainnet Scenario.client
                       (Some Scenario.bob) Scenario.bob Scenario.retired)
                Scenario.genesis Scenario.genesis eq_refl)
      as (res & Hrun & _ & Hsome).
    rewrite Hrun, Hsome; [reflexivity | discriminate].
  - destruct (proj1 (getAgent_sentinel Scenario.mainnet Scenario.client
                       None Scenario.bob Sim.noAgent)
                Scenario.genesis Scenario.genesis eq_refl)
      as (res & Hrun & Hnone & _).
    rewrite Hrun, Hnone; reflexivity.
  - destruct (proj2 (getAgent_sentinel Scenario.mainnet Scenario.client
                       None "0x0000000000000000000000000000000000000001"
                       Sim.noAgent)
                Scenario.genesis Scenario.genesis eq_refl)
      as (res & Hrun & Hnone & _).
    rewrite Hrun, Hnone; reflexivity.
Defined.

(** The claim C3 as first stated fails in [Standalone]: [bob] is
    registered (nonzero join timestamp) and switched off, and the lookup
    answers null. *)
Lemma getAgent_registered_inactive_null :
  observe Scenario.mainnet
    (readContract Standalone.HIVEMIND_ADDRESS (Abi.agents Scenario.bob))
    Scenario.genesis = Ok Scenario.retired /\
  out_joinedAt Scenario.retired <> 0 /\
  run Scenario.mainnet (Standalone.getAgent Scenario.bob) Scenario.genesis
  = ([Ev (readContract Standalone.HIVEMIND_ADDRESS
            (Abi.agents Scenario.bob)) (Ok Scenario.retired)],
     Fulfilled None Scenario.genesis).
Proof.
  split; [reflexivity | split; [discriminate | reflexivity]].
Qed.

(** C4.  The two existence rules disagree: on the tuple of a registered
    but inactive agent (nonzero [joinedAt], [active] false), whichever
    chain returns it, [Client.getAgent] fulfils with a populated record
    and [Standalone.getAgent] with null; so the two lookups are not the
    same function of the address. *)
Theorem getAgent_variants_disagree :
  let t := Scenario.retired in
  out_joinedAt t <> 0 /\
  out_active t = false /\
  (forall (c : Chain) (this : Client.HiveMind) (a : Address)
          (w w1 : World c),
      handle c (readContract (Client.hivemindAddress this) (Abi.agents a)) w
      = (Ok t, w1) ->
      snd (run c (Client.getAgent this (Some a)) w)
      = Fulfilled (Some (agentRecord t)) w1) /\
  (forall (c : Chain) (a : Address) (w w1 : World c),
      handle c (readContract Standalone.HIVEMIND_ADDRESS (Abi.agents a)) w
      = (Ok t, w1) ->
      snd (run c (Standalone.getAgent a) w) = Fulfilled None w1) /\
  ~ (forall (this : Client.HiveMind) (a : Address),
        Client.getAgent this (Some a) = Standalone.getAgent a).
Proof.
  cbv zeta. split; [discriminate | split; [reflexivity | split; [| split]]].
  - intros c this a w w1 Hread.
    unfold Client.getAgent. simpl run. rewrite Hread. reflexivity.
  - intros c a w w1 Hread.
    unfold Standalone.getAgent. simpl run. rewrite Hread. reflexivity.
  - intros Heq.
    specialize (Heq Scenario.client Scenario.bob).
    apply (f_equal (fun p => snd (run Scenario.mainnet p Scenario.genesis)))
      in Heq.
    discriminate Heq.
Qed.

Lemma getAgent_variants_disagree_witness :
  snd (run Scenario.mainnet
         (Client.getAgent Scenario.client (Some Scenario.bob))
         Scenario.genesis)
  = Fulfilled (Some (agentRecord Scenario.retired)) Scenario.genesis /\
  snd (run Scenario.mainnet (Standalone.getAgent Scenario.bob)
         Scenario.genesis)
  = Fulfilled None Scenario.genesis.
Proof.
  destruct getAgent_variants_disagree as (_ & _ & Hclient & Halone & _).
  split.
  - apply Hclient. reflexivity.
  - apply Halone. reflexivity.
Defined.

(** ** Unit conversion *)

Lemma Qround_inject_Z (m : Z) : Qround (inject_Z m) = m.
Proof.
  unfold Qround.
  destruct (Qle_bool 0 (inject_Z m)); unfold Qfloor; simpl;
    Z.div_mod_to_equations; lia.
Qed.

Lemma Qround_comp (x y : Q) : x == y -> Qround x = Qround y.
Proof.
  intros H. unfold Qround.
  assert (Hb : Qle_bool 0 x = Qle_bool 0 y).
  { destruct (Qle_bool 0 x) eqn:Hx, (Qle_bool 0 y) eqn:Hy; try reflexivity.
    - apply Qle_bool_iff in Hx. rewrite H in Hx.
      apply Qle_bool_iff in Hx. congruence.
    - apply Qle_bool_iff in Hy. rewrite <- H in Hy.
      apply Qle_bool_iff in Hy. congruence. }
  rewrite Hb. destruct (Qle_bool 0 y).
  - apply Qfloor_comp. rewrite H. reflexivity.
  - f_equal. apply Qfloor_comp. rewrite H. reflexivity.
Qed.

Lemma scale_nonzero (d : nat) : ~ inject_Z (10 ^ Z.of_nat d) == 0.
Proof.
  unfold Qeq; simpl. rewrite Z.mul_1_r.
  assert (0 < 10 ^ Z.of_nat d) by (apply Z.pow_pos_nonneg; lia). lia.
Qed.

(** C5.  A non-negative decimal value with at most 6 fractional digits
    survives the trip to smallest units and back: scaling it by 10^6
    ([parseUnits], as [join] does with [creditsToPool]) and dividing the
    integer by 10^6 again ([formatUnits] and the numeric parse, as
    [getUsdcBalance] does with the balance) yields the value itself. *)
Theorem decimal_round_trip (x : Q) :
  (0 <= x)%Q ->
  fractionalDigitsAtMost Constants.USDC_DECIMALS x ->
  formatUnits (parseUnits x Constants.USDC_DECIMALS) Constants.USDC_DECIMALS
  == x.
Proof.
  intros _ [m Hm].
  unfold formatUnits, parseUnits.
  assert (Hscaled :
            x * inject_Z (10 ^ Z.of_nat Constants.USDC_DECIMALS)
            == inject_Z m).
  { rewrite Hm. field. apply scale_nonzero. }
  rewrite (Qround_comp _ _ Hscaled), Qround_inject_Z.
  symmetry. exact Hm.
Qed.

Lemma decimal_round_trip_witness :
  formatUnits (parseUnits (25 # 10) Constants.USDC_DECIMALS)
    Constants.USDC_DECIMALS == 25 # 10.
Proof.
  apply (decimal_round_trip (25 # 10)).
  - discriminate.
  - exists 2500000. reflexivity.
Defined.

(** ** Project lookup *)

(** C6.  For an existing project, whose status the contract reports as
    one of its three enumerated states (0, 1 or 2), [getProject] issues
    the core-tuple read and the contributor-list read and fulfils with
    one merged record.  Its id is the argument; its name, repository,
    creator and funding are those of the core tuple, its creation date
    is the tuple's timestamp in milliseconds; its status is the tuple's
    status, as a number in [Client] and as the name of that state in
    [Standalone], hence one of Active, Completed and Cancelled; and its
    contributor list is exactly the list the contributor read returned,
    hence of the same length. *)
Theorem getProject_merges (c : Chain) (this : Client.HiveMind)
  (projectId : Z) (t : ProjectsOutput) (cs : list Address) :
  0 <= out_status t < 3 ->
  (forall w w1 w2 : World c,
      handle c (readContract (Client.hivemindAddress this)
                  (Abi.projects projectId)) w = (Ok t, w1) ->
      handle c (readContract (Client.hivemindAddress this)
                  (Abi.getContributors projectId)) w1 = (Ok cs, w2) ->
      exists p,
        run c (Client.getProject this projectId) w
        = ([Ev (readContract (Client.hivemindAddress this)
                  (Abi.projects projectId)) (Ok t);
            Ev (readContract (Client.hivemindAddress this)
                  (Abi.getContributors projectId)) (Ok cs)],
           Fulfilled p w2) /\
        p = {| Project.id := projectId;
               Project.name := out_name t;
               Project.repoUrl := out_repoUrl t;
               Project.creator := out_creator t;
               Project.totalFunding := out_totalFunding t;
               Project.createdAt :=
                 newDate (times (Number (out_createdAt t)) 1000);
               Project.status := out_status t;
               Project.contributors := cs |} /\
        Project.id p = projectId /\
        In (Project.status p)
           [ProjectStatus.Active; ProjectStatus.Completed;
            ProjectStatus.Cancelled] /\
        Project.contributors p = cs /\
        List.length (Project.contributors p) = List.length cs) /\
  (forall w w1 w2 : World c,
      handle c (readContract Standalone.HIVEMIND_ADDRESS
                  (Abi.projects projectId)) w = (Ok t, w1) ->
      handle c (readContract Standalone.HIVEMIND_ADDRESS
                  (Abi.getContributors projectId)) w1 = (Ok cs, w2) ->
      exists p st,
        run c (Standalone.getProject projectId) w
        = ([Ev (readContract Standalone.HIVEMIND_ADDRESS
                  (Abi.projects projectId)) (Ok t);
            Ev (readContract Standalone.HIVEMIND_ADDRESS
                  (Abi.getContributors projectId)) (Ok cs)],
           Fulfilled p w2) /\
        p = {| Standalone.Project.id := projectId;
               Standalone.Project.name := out_name t;
               Standalone.Project.repoUrl := out_repoUrl t;
               Standalone.Project.creator := out_creator t;
               Standalone.Project.totalFunding := out_totalFunding t;
               Standalone.Project.createdAt :=
                 newDate (times (Number (out_createdAt t)) 1000);
               Standalone.Project.status := Some st;
               Standalone.Project.contributors := cs |} /\
        (out_status t = ProjectStatus.Active -> st = "Active") /\
        (out_status t = ProjectStatus.Completed -> st = "Completed") /\
        (out_status t = ProjectStatus.Cancelled -> st = "Cancelled") /\
        Standalone.Project.id p = projectId /\
        In (Standalone.Project.status p)
           [Some "Active"; Some "Completed"; Some "Cancelled"] /\
        Standalone.Project.contributors p = cs /\
        List.length (Standalone.Project.contributors p) = List.length cs).
Proof.
  intros Hstatus.
  assert (Hcases : out_status t = 0 \/ out_status t = 1 \/ out_status t = 2)
    by lia.
  split; intros w w1 w2 Hproject Hcontributors.
  - unfold Client.getProject, BigInt. simpl run.
    rewrite Hproject, Hcontributors.
    eexists; split; [reflexivity |].
    split; [reflexivity |]. cbn [Project.id Project.status
                                  Project.contributors].
    split; [reflexivity |].
    split; [| split; reflexivity].
    unfold ProjectStatus.Active, ProjectStatus.Completed,
      ProjectStatus.Cancelled.
    destruct Hcases as [-> | [-> | ->]]; simpl; auto.
  - unfold Standalone.getProject, BigInt. simpl run.
    rewrite Hproject, Hcontributors.
    unfold ProjectStatus.Active, ProjectStatus.Completed,
      ProjectStatus.Cancelled.
    destruct Hcases as [Hs | [Hs | Hs]]; rewrite Hs;
      eexists; eexists; (split; [reflexivity |]);
      (split; [reflexivity |]);
      cbn [Standalone.Project.id Standalone.Project.status
           Standalone.Project.contributors];
      repeat (split; [first [reflexivity | discriminate | intros _; reflexivity] |]);
      try reflexivity; simpl; auto.
Qed.

Lemma getProject_merges_witness :
  exists p,
    run Scenario.mainnet (Client.getProject Scenario.client 1)
      Scenario.genesis
    = ([Ev (readContract Standalone.HIVEMIND_ADDRESS (Abi.projects 1))
           (Ok Scenario.openclaw);
        Ev (readContract Standalone.HIVEMIND_ADDRESS (Abi.getContributors 1))
           (Ok [Scenario.bob])],
       Fulfilled p Scenario.genesis) /\
    p = {| Project.id := 1;
           Project.name := "HiveMind OpenClaw Integration SDK";
           Project.repoUrl :=
             "https://github.com/minduploadedcrustacean/hivemind-sdk";
           Project.creator := Scenario.bob;
           Project.totalFunding := 12000000;
           Project.createdAt := {| getTime := Some 1700000200000 |};
           Project.status := ProjectStatus.Completed;
           Project.contributors := [Scenario.bob] |}.
Proof.
  assert (Hstatus : 0 <= out_status Scenario.openclaw < 3) by (simpl; lia).
  destruct (proj1 (getProject_merges Scenario.mainnet Scenario.client 1
                     Scenario.openclaw [Scenario.bob] Hstatus)
              Scenario.genesis Scenario.genesis Scenario.genesis
              eq_refl eq_refl) as (p & Hrun & Hp & _).
  exists p. split; [exact Hrun | exact Hp].
Defined.

(** ** Write operations *)




(** ** Construction *)

Lemma hex_not_prefixed (k : string) :
  String.length k = 64%nat -> isHex k = true -> startsWith k "0x" = false.
Proof.
  intros Hlen Hhex.
  destruct k as [| c1 [| c2 rest]]; try discriminate Hlen.
  unfold startsWith; cbn [prefix].
  destruct (ascii_dec "0" c1) as [_ | _]; [| reflexivity].
  destruct (ascii_dec "x" c2) as [<- | _]; [| reflexivity].
  unfold isHex in Hhex; simpl in Hhex.
  apply andb_true_iff in Hhex as [_ Hhex].
  discriminate Hhex.
Qed.

(** C8.  For a key of 64 hexadecimal characters, [Client]'s
    constructor hands the same normalized key, the prefixed one, to the
    key derivation whether or not the caller wrote the prefix.  Whatever
    that derivation is, the two constructions give the same outcome:
    when it derives an account from the prefixed key, both succeed with
    that account, and the wallet address of the client is the address
    of that account; when it refuses the prefixed key, both fail with
    its error.  ([Standalone] takes a key that its type already requires
    to be prefixed.) *)
Theorem constructor_normalizes_key
  (privateKeyToAccount : string -> Result PrivateKeyAccount)
  (k : string) (chain : option SupportedChain) (rpcUrl : option string) :
  String.length k = 64%nat ->
  isHex k = true ->
  let bare := {| Client.Config.privateKey := k;
                 Client.Config.chain := chain;
                 Client.Config.rpcUrl := rpcUrl |} in
  let prefixed := {| Client.Config.privateKey := ("0x" ++ k)%string;
                     Client.Config.chain := chain;
                     Client.Config.rpcUrl := rpcUrl |} in
  Client.normalizedKey bare = ("0x" ++ k)%string /\
  Client.normalizedKey prefixed = ("0x" ++ k)%string /\
  Client.constructor privateKeyToAccount bare
  = Client.constructor privateKeyToAccount prefixed /\
  (forall this this',
      Client.constructor privateKeyToAccount bare = Ok this ->
      Client.constructor privateKeyToAccount prefixed = Ok this' ->
      Client.address this = Client.address this') /\
  (forall account,
      privateKeyToAccount ("0x" ++ k)%string = Ok account ->
      exists this,
        Client.constructor privateKeyToAccount bare = Ok this /\
        Client.constructor privateKeyToAccount prefixed = Ok this /\
        Client.account this = account /\
        Client.address this = account_address account) /\
  (forall e,
      privateKeyToAccount ("0x" ++ k)%string = Err e ->
      Client.constructor privateKeyToAccount bare = Err e /\
      Client.constructor privateKeyToAccount prefixed = Err e).
Proof.
  intros Hlen Hhex bare prefixed.
  assert (Hbare : Client.normalizedKey bare = ("0x" ++ k)%string).
  { unfold Client.normalizedKey, bare; simpl Client.Config.privateKey.
    rewrite (hex_not_prefixed k Hlen Hhex). reflexivity. }
  assert (Hprefixed : Client.normalizedKey prefixed = ("0x" ++ k)%string).
  { unfold Client.normalizedKey, prefixed, startsWith.
    cbn [Client.Config.privateKey append prefix].
    repeat match goal with
           | |- context [ascii_dec ?a ?b] =>
               destruct (ascii_dec a b) as [_ | H];
               [| contradiction H; reflexivity]
           end.
    destruct k; reflexivity. }
  assert (Hsame : Client.constructor privateKeyToAccount bare
                  = Client.constructor privateKeyToAccount prefixed).
  { unfold Client.constructor. rewrite Hbare, Hprefixed. reflexivity. }
  split; [exact Hbare | split; [exact Hprefixed | split; [exact Hsame |]]].
  split; [| split].
  - intros this this' H1 H2. rewrite Hsame, H2 in H1.
    injection H1 as ->. reflexivity.
  - intros account Hderived. rewrite <- Hsame.
    unfold Client.constructor. rewrite Hbare, Hderived.
    eexists. split; [reflexivity |].
    split; [reflexivity | split; reflexivity].
  - intros e Hrefused. rewrite <- Hsame.
    unfold Client.constructor. rewrite Hbare, Hrefused.
    split; reflexivity.
Qed.

Lemma constructor_normalizes_key_witness :
  exists this,
    Client.constructor Scenario.privateKeyToAccount
      {| Client.Config.privateKey := Scenario.key;
         Client.Config.chain := None;
         Client.Config.rpcUrl := None |}
    = Ok this /\
    Client.constructor Scenario.privateKeyToAccount
      {| Client.Config.privateKey := ("0x" ++ Scenario.key)%string;
         Client.Config.chain := None;
         Client.Config.rpcUrl := None |}
    = Ok this /\
    Client.address this = "0x0000000000000000000000000000000000000001".
Proof.
  destruct (constructor_normalizes_key Scenario.privateKeyToAccount
              Scenario.key None None eq_refl eq_refl)
    as (_ & _ & _ & _ & Hderived & _).
  destruct (Hderived Scenario.alice eq_refl) as (this & H1 & H2 & _ & H3).
  exists this. split; [exact H1 | split; [exact H2 | exact H3]].
Defined.

(** ** Token balance *)

(** Rounding to the nearest integer is off by half a unit at most. *)
Lemma roundHalfEven_near (n d : Z) :
  0 < d -> 0 <= n -> 2 * Z.abs (roundHalfEven n d * d - n) <= d.
Proof.
  intros Hd Hn. unfold roundHalfEven.
  pose proof (Z.div_mod n d ltac:(lia)) as Hdiv.
  pose proof (Z.mod_pos_bound n d Hd) as Hmod.
  destruct (2 * (n mod d) <? d) eqn:H1;
    [apply Z.ltb_lt in H1 | apply Z.ltb_ge in H1].
  - nia.
  - destruct (d <? 2 * (n mod d)) eqn:H2;
      [apply Z.ltb_lt in H2 | apply Z.ltb_ge in H2].
    + nia.
    + destruct (Z.even (n / d)); nia.
Qed.

Lemma pow2_pos (z : Z) : 0 < pow2 z.
Proof. unfold pow2. apply Z.pow_pos_nonneg; lia. Qed.

Lemma pow2_nonneg (z : Z) : 0 <= z -> pow2 z = 2 ^ z.
Proof. intros H. unfold pow2. rewrite Z.max_r by lia. reflexivity. Qed.

Lemma pow2_neg (z : Z) : z <= 0 -> pow2 z = 1.
Proof. intros H. unfold pow2. rewrite Z.max_l by lia. reflexivity. Qed.

(** [log2Q n d] is no more than the binary logarithm of [n / d]. *)
Lemma log2Q_le (n d : Z) :
  0 < n -> 0 < d ->
  d * pow2 (log2Q n d) <= n * pow2 (- log2Q n d).
Proof.
  intros Hn Hd. unfold log2Q.
  destruct (Z.leb_spec (d * pow2 (Z.log2 n - Z.log2 d))
              (n * pow2 (- (Z.log2 n - Z.log2 d)))) as [H | H];
    [exact H | clear H].
  destruct (Z.log2_spec n Hn) as [Hn1 Hn2].
  destruct (Z.log2_spec d Hd) as [Hd1 Hd2].
  pose proof (Z.log2_nonneg n) as Hln.
  pose proof (Z.log2_nonneg d) as Hld.
  remember (Z.log2 n) as ln. remember (Z.log2 d) as ld.
  destruct (Z_le_gt_dec 1 (ln - ld)) as [Hl | Hl].
  - rewrite pow2_nonneg, pow2_neg by lia.
    assert (Hpow : 2 ^ ln = 2 ^ (Z.succ ld) * 2 ^ (ln - ld - 1)).
    { rewrite <- Z.pow_add_r by lia. f_equal; lia. }
    assert (0 < 2 ^ (ln - ld - 1)) by (apply Z.pow_pos_nonneg; lia).
    nia.
  - rewrite pow2_neg, pow2_nonneg by lia.
    assert (Hpow : 2 ^ (Z.succ ld) = 2 ^ ln * 2 ^ (- (ln - ld - 1))).
    { rewrite <- Z.pow_add_r by lia. f_equal; lia. }
    assert (0 < 2 ^ (- (ln - ld - 1))) by (apply Z.pow_pos_nonneg; lia).
    nia.
Qed.

(** The scaled value has at least 53 bits. *)
Lemma scaled_53_bits (n d l : Z) :
  0 < n -> 0 < d ->
  d * pow2 l <= n * pow2 (- l) ->
  2 ^ 52 * (d * pow2 (l - 52)) <= n * pow2 (- (l - 52)).
Proof.
  intros Hn Hd H.
  destruct (Z_le_gt_dec 52 l) as [Hl | Hl].
  - rewrite (pow2_nonneg l), (pow2_neg (- l)) in H by lia.
    rewrite (pow2_nonneg (l - 52)), (pow2_neg (- (l - 52))) by lia.
    replace (2 ^ l) with (2 ^ 52 * 2 ^ (l - 52)) in H
      by (rewrite <- Z.pow_add_r by lia; f_equal; lia).
    lia.
  - rewrite (pow2_neg (l - 52)), (pow2_nonneg (- (l - 52))) by lia.
    destruct (Z_le_gt_dec 0 l) as [Hl0 | Hl0].
    + rewrite (pow2_nonneg l), (pow2_neg (- l)) in H by lia.
      replace (2 ^ 52) with (2 ^ l * 2 ^ (52 - l))
        by (rewrite <- Z.pow_add_r by lia; f_equal; lia).
      replace (- (l - 52)) with (52 - l) by lia.
      assert (0 < 2 ^ (52 - l)) by (apply Z.pow_pos_nonneg; lia).
      nia.
    + rewrite (pow2_neg l), (pow2_nonneg (- l)) in H by lia.
      replace (2 ^ (- (l - 52))) with (2 ^ (- l) * 2 ^ 52)
        by (rewrite <- Z.pow_add_r by lia; f_equal; lia).
      nia.
Qed.

(** The nearest double is within one part in 2^53 of the value. *)
Lemma NumberOfDecimal_near (x : Q) :
  (0 <= x)%Q ->
  (Qabs (NumberOfDecimal x - x) * inject_Z (2 ^ 53) <= x)%Q.
Proof.
  intros Hx. destruct x as [n d]. unfold Qle in Hx; simpl in Hx.
  assert (Hn : 0 <= n) by lia. clear Hx.
  unfold NumberOfDecimal. cbn [Qnum Qden].
  rewrite (Z.abs_eq n Hn).
  destruct (Z.eqb_spec n 0) as [-> | Hn0].
  - unfold Qle; simpl. lia.
  - assert (Hpos : 0 < n) by lia.
    rewrite (Z.sgn_pos n Hpos), Z.mul_1_l.
    pose proof (log2Q_le n (Zpos d) Hpos ltac:(lia)) as Hlog.
    apply scaled_53_bits in Hlog; [| lia | lia].
    set (e := log2Q n (Zpos d) - 52) in *.
    pose proof (pow2_pos e) as HP. pose proof (pow2_pos (- e)) as HP'.
    pose proof (roundHalfEven_near (n * pow2 (- e)) (Zpos d * pow2 e)
                  ltac:(nia) ltac:(nia)) as Hnear.
    set (m := roundHalfEven (n * pow2 (- e)) (Zpos d * pow2 e)) in *.
    destruct (pow2 (- e)) as [| p' | p'] eqn:Hp'; try lia.
    set (P := pow2 e) in *.
    unfold Qdiv, Qinv, inject_Z. cbn [Qnum Qden].
    unfold Qle, Qabs, Qminus, Qplus, Qopp, Qmult. cbn [Qnum Qden].
    rewrite !Pos2Z.inj_mul, !Z.mul_1_r, !Z.mul_1_l.
    remember (Z.pos d) as D eqn:HD. remember (Z.pos p') as P' eqn:HP'eq.
    assert (HDpos : 0 < D) by lia.
    remember (Z.abs (m * (D * P) - n * P')) as A eqn:HA.
    replace (m * P * D + - n * P') with (m * (D * P) - n * P') by ring.
    rewrite <- HA.
    assert (Hbound : A * 2 ^ 53 <= n * P').
    { change (2 ^ 53) with (2 * 2 ^ 52). lia. }
    replace (n * (P' * D)) with (n * P' * D) by ring.
    apply Z.mul_le_mono_nonneg_r; lia.
Qed.

(** C9, as amended.  [getUsdcBalance] reads the token balance of the
    given address, or of the client's own address when none is given.
    [Client] fulfils with the balance divided by 10^6, as a double: the
    double nearest to the quotient, hence within one part in 2^53 of
    it.  [Standalone] fulfils with the smallest-unit integer as the
    token contract reported it. *)
Theorem getUsdcBalance_converts (c : Chain) (this : Client.HiveMind)
  (alone : Standalone.HiveMind) (address_ : option Address) (balance : Z) :
  (forall w w1 : World c,
      handle c (readContract (Client.usdcAddress this)
                  (Abi.balanceOf (nullish address_ (Client.address this)))) w
      = (Ok balance, w1) ->
      exists x : Q,
        run c (Client.getUsdcBalance this address_) w
        = ([Ev (readContract (Client.usdcAddress this)
                  (Abi.balanceOf
                     (nullish address_ (Client.address this))))
               (Ok balance)],
           Fulfilled x w1) /\
        x = NumberOfDecimal (inject_Z balance / inject_Z (10 ^ 6)) /\
        (0 <= balance ->
         (Qabs (x - inject_Z balance / inject_Z (10 ^ 6))
          * inject_Z (2 ^ 53)
          <= inject_Z balance / inject_Z (10 ^ 6))%Q)) /\
  (forall w w1 : World c,
      handle c (readContract Standalone.USDC_ADDRESS
                  (Abi.balanceOf
                     (nullish address_ (Standalone.address alone)))) w
      = (Ok balance, w1) ->
      run c (Standalone.getUsdcBalance alone address_) w
      = ([Ev (readContract Standalone.USDC_ADDRESS
                (Abi.balanceOf
                   (nullish address_ (Standalone.address alone))))
             (Ok balance)],
         Fulfilled balance w1)).
Proof.
  split; intros w w1 Hread.
  - unfold Client.getUsdcBalance. simpl run. rewrite Hread.
    eexists; split; [reflexivity |]. split; [reflexivity |].
    intros Hbalance. apply NumberOfDecimal_near.
    unfold Qle; simpl. lia.
  - unfold Standalone.getUsdcBalance, await. simpl run. rewrite Hread.
    reflexivity.
Qed.

Lemma getUsdcBalance_converts_witness :
  exists x : Q,
    run Scenario.mainnet (Client.getUsdcBalance Scenario.client None)
      Scenario.genesis
    = ([Ev (readContract Standalone.USDC_ADDRESS
              (Abi.balanceOf "0x0000000000000000000000000000000000000001"))
           (Ok 2500000)],
       Fulfilled x Scenario.genesis) /\
    x == 5 # 2 /\
    (Qabs (x - inject_Z 2500000 / inject_Z (10 ^ 6)) * inject_Z (2 ^ 53)
     <= inject_Z 2500000 / inject_Z (10 ^ 6))%Q.
Proof.
  destruct (proj1 (getUsdcBalance_converts Scenario.mainnet Scenario.client
                     Scenario.standalone None 2500000)
              Scenario.genesis Scenario.genesis eq_refl)
    as (x & Hrun & Hx & Hnear).
  exists x. split; [exact Hrun |].
  split; [rewrite Hx; vm_compute; reflexivity | apply Hnear; lia].
Defined.

(** The claim C9 as first stated fails in [Standalone]: with 2.5 USDC
    held, the lookup fulfils with 2500000, not with 2.5. *)
Lemma standalone_balance_not_converted :
  run Scenario.mainnet (Standalone.getUsdcBalance Scenario.standalone None)
    Scenario.genesis
  = ([Ev (readContract Standalone.USDC_ADDRESS
            (Abi.balanceOf "0x0000000000000000000000000000000000000001"))
         (Ok 2500000)],
     Fulfilled 2500000 Scenario.genesis) /\
  ~ inject_Z 2500000 == formatUnits 2500000 Constants.USDC_DECIMALS.
Proof.
  split; [reflexivity | discriminate].
Qed.

(** ** What the authorization step leaves behind *)

(** The reference chain keeps allowances the way a token does. *)
Lemma sim_erc20_allowance (sender ledger token spender : Address) :
  erc20_allowance (Sim.chain sender ledger token) token sender spender.
Proof.
  split.
  - intros w w1 a H. simpl in H. injection H as Ha <-.
    unfold observe; simpl. exact Ha.
  - intros w w1 w2 v h rc Hsubmit Hwait.
    simpl in Hsubmit, Hwait. rewrite String.eqb_refl in Hsubmit.
    injection Hsubmit as _ <-. injection Hwait as _ <-.
    unfold observe; simpl. rewrite String.eqb_refl.
    unfold Sim.lookupAllowance; simpl. rewrite !String.eqb_refl. reflexivity.
Qed.




(** * Further properties of the two clients *)

(** ** Reads *)

(** Starting a call and then running what is left of it is running the
    call. *)
Lemma run_after_launch (c : Chain) (A : Type) (p : Prog A) (w : World c) :
  run c p w =
  match launch c p w with
  | (t, Ok k, w1) => let (u, o) := run c k w1 in (t ++ u, o)
  | (t, Err e, w1) => (t, Rejected e w1)
  end.
Proof.
  destruct p as [r | e | q k | q1 q2 k]; simpl.
  - reflexivity.
  - reflexivity.
  - destruct (handle c q w) as [[x | e] w1]; [| reflexivity].
    destruct (run c (k x) w1); reflexivity.
  - destruct (handle c q1 w) as [[x | e] w1];
      destruct (handle c q2 w1) as [[y | e'] w2];
      try destruct (run c (k x y) w2); reflexivity.
Qed.

(** X1.  No read method of either client ever submits a transaction or
    waits for a receipt: on every chain, from every state and whatever
    the replies, its log holds [readContract] requests only, three at
    most. *)
Theorem reads_never_transact (c : Chain) (R : Type) (t : Task R)
  (w : World c) :
  read_operation R t ->
  forallb isRead (requests (fst (runTask c t w))) = true /\
  (List.length (fst (runTask c t w)) <= 3)%nat.
Proof.
  intros Hro; destruct Hro;
    unfold Client.getUsdcBalance, Client.getAgent, Client.getProject,
      Client.getContribution, Client.getProjectCount, Client.getAgentCount,
      Client.getTotalCreditsPooled, Client.getHiveStats,
      Standalone.getStats, Standalone.getAgent, Standalone.getProject,
      Standalone.getUsdcBalance, runTask, runAll3;
    simpl; handles;
    repeat match goal with
           | |- context [if ?b then _ else _] => destruct b; simpl
           end;
    split; first [reflexivity | lia].
Qed.

Lemma reads_never_transact_witness :
  forallb isRead
    (requests
       (fst (runTask Scenario.mainnet
               (Client.getHiveStats Scenario.client) Scenario.genesis)))
  = true /\
  (List.length
     (fst (runTask Scenario.mainnet
             (Client.getHiveStats Scenario.client) Scenario.genesis))
   <= 3)%nat.
Proof.
  exact (reads_never_transact Scenario.mainnet _ _ Scenario.genesis
           (ro_getHiveStats Scenario.client)).
Defined.

(** X2.  The combined statistics read of either client always issues its
    three reads (agent count, project count, pooled total, in that
    order), also when an earlier one is rejected.  When all three are
    answered it fulfils with the two counts as doubles, which up to
    2^53 are the counts as reported, and the pooled total, which
    [Client] converts to display units, as the nearest double, and
    [Standalone] passes on in smallest units; when one is rejected it
    rejects. *)
Theorem stats_issue_three_reads (c : Chain) (this : Client.HiveMind)
  (w : World c) :
  let reads ledger :=
    [readContract ledger Abi.getAgentCount;
     readContract ledger Abi.projectCount;
     readContract ledger Abi.totalCreditsPooled] in
  requests (fst (runTask c (Client.getHiveStats this) w))
  = reads (Client.hivemindAddress this) /\
  requests (fst (runTask c Standalone.getStats w))
  = reads Standalone.HIVEMIND_ADDRESS /\
  (forall (a p t : Z) (w1 w2 w3 : World c),
      handle c (readContract (Client.hivemindAddress this)
                  Abi.getAgentCount) w = (Ok a, w1) ->
      handle c (readContract (Client.hivemindAddress this)
                  Abi.projectCount) w1 = (Ok p, w2) ->
      handle c (readContract (Client.hivemindAddress this)
                  Abi.totalCreditsPooled) w2 = (Ok t, w3) ->
      snd (runTask c (Client.getHiveStats this) w)
      = Fulfilled
          {| Client.HiveStats.agentCount := Number a;
             Client.HiveStats.projectCount := Number p;
             Client.HiveStats.totalCreditsPooled :=
               NumberOfDecimal (inject_Z t / inject_Z (10 ^ 6)) |} w3 /\
      (0 <= a <= 2 ^ 53 -> Number a = a) /\
      (0 <= p <= 2 ^ 53 -> Number p = p) /\
      (0 <= t ->
       (Qabs (NumberOfDecimal (inject_Z t / inject_Z (10 ^ 6))
              - inject_Z t / inject_Z (10 ^ 6)) * inject_Z (2 ^ 53)
        <= inject_Z t / inject_Z (10 ^ 6))%Q)) /\
  (forall (a p t : Z) (w1 w2 w3 : World c),
      handle c (readContract Standalone.HIVEMIND_ADDRESS
                  Abi.getAgentCount) w = (Ok a, w1) ->
      handle c (readContract Standalone.HIVEMIND_ADDRESS
                  Abi.projectCount) w1 = (Ok p, w2) ->
      handle c (readContract Standalone.HIVEMIND_ADDRESS
                  Abi.totalCreditsPooled) w2 = (Ok t, w3) ->
      snd (runTask c Standalone.getStats w)
      = Fulfilled
          {| Standalone.HiveStats.agentCount := Number a;
             Standalone.HiveStats.projectCount := Number p;
             Standalone.HiveStats.totalCreditsPooled := t |} w3 /\
      (0 <= a <= 2 ^ 53 -> Number a = a) /\
      (0 <= p <= 2 ^ 53 -> Number p = p)) /\
  (answered (fst (runTask c (Client.getHiveStats this) w)) = false ->
   exists e w', snd (runTask c (Client.getHiveStats this) w)
                = Rejected e w') /\
  (answered (fst (runTask c Standalone.getStats w)) = false ->
   exists e w', snd (runTask c Standalone.getStats w) = Rejected e w').
Proof.
  cbv zeta.
  assert (Hexact : forall n, 0 <= n <= 2 ^ 53 -> Number n = n)
    by (intros n Hn; apply Number_exact, Z.abs_le; lia).
  split; [| split; [| split; [| split; [| split]]]].
  - unfold Client.getHiveStats, runTask, runAll3; simpl; handles;
      reflexivity.
  - unfold Standalone.getStats, runTask, runAll3; simpl; handles;
      reflexivity.
  - intros a p t w1 w2 w3 H1 H2 H3.
    split; [| split; [apply Hexact | split; [apply Hexact |]]].
    + unfold Client.getHiveStats, runTask, runAll3,
        Client.getAgentCount, Client.getProjectCount,
        Client.getTotalCreditsPooled; cbn [launch bind await].
      rewrite H1, H2, H3. reflexivity.
    + intros Ht. apply NumberOfDecimal_near. unfold Qle; simpl. lia.
  - intros a p t w1 w2 w3 H1 H2 H3.
    split; [| split; apply Hexact].
    unfold Standalone.getStats, runTask, runAll3; cbn [launch bind await].
    rewrite H1, H2, H3. reflexivity.
  - unfold Client.getHiveStats, runTask, runAll3; simpl; handles;
      intros H; try discriminate H; eauto.
  - unfold Standalone.getStats, runTask, runAll3; simpl; handles;
      intros H; try discriminate H; eauto.
Qed.

Lemma stats_issue_three_reads_witness :
  snd (runTask Scenario.mainnet (Client.getHiveStats Scenario.client)
         Scenario.genesis)
  = Fulfilled
      {| Client.HiveStats.agentCount := 1;
         Client.HiveStats.projectCount := 2;
         Client.HiveStats.totalCreditsPooled := 0 |} Scenario.genesis /\
  snd (runTask Scenario.mainnet Standalone.getStats Scenario.genesis)
  = Fulfilled
      {| Standalone.HiveStats.agentCount := 1;
         Standalone.HiveStats.projectCount := 2;
         Standalone.HiveStats.totalCreditsPooled := 0 |} Scenario.genesis.
Proof.
  destruct (stats_issue_three_reads Scenario.mainnet Scenario.client
              Scenario.genesis) as (_ & _ & Hclient & Halone & _).
  split.
  - exact (proj1 (Hclient 1 2 0 _ _ _ eq_refl eq_refl eq_refl)).
  - exact (proj1 (Halone 1 2 0 _ _ _ eq_refl eq_refl eq_refl)).
Defined.

(** ** Writes that need no authorization *)



(** ** The two clients side by side *)

Lemma run_ret_map (c : Chain) (A B : Type) (p : Prog A) (f : A -> B)
  (w : World c) :
  run c (bind p (fun a => Ret (f a))) w
  = (fst (run c p w), mapOutcome f (snd (run c p w))).
Proof.
  rewrite run_bind. destruct (run c p w) as [tr [a w1 | e w1]]; simpl.
  - rewrite app_nil_r. reflexivity.
  - reflexivity.
Qed.

Lemma approval_steps_agree (this : Client.HiveMind)
  (alone : Standalone.HiveMind) (amount : Z) :
  aligned this alone ->
  Client.ensureApproval this amount = Standalone.approveUsdc alone amount.
Proof.
  intros (Hledger & Htoken & Hwallet).
  unfold Client.ensureApproval, Standalone.approveUsdc.
  rewrite Hledger, Htoken, Hwallet. reflexivity.
Qed.

(** X4.  For a [Client] and a [Standalone] that use the same contracts
    and wallet, each write of [Standalone] produces, on every chain and
    from every state, the same log and the same final state as its
    [Client] namesake, and settles the same way: it rejects with the
    same error, or fulfils with the hash (for [createProject]: the hash
    and the project id) of what [Client] fulfils with.  For
    [createProject] this needs funding that parses to a positive
    amount. *)
Theorem standalone_writes_follow_client (c : Chain)
  (this : Client.HiveMind) (alone : Standalone.HiveMind) (R S : Type)
  (p : Prog R) (p' : Prog S) (f : R -> S) (w : World c) :
  aligned this alone ->
  namesake this alone R S p p' f ->
  run c p' w = (fst (run c p w), mapOutcome f (snd (run c p w))).
Proof.
  intros Haligned Hns.
  pose proof (approval_steps_agree this alone) as Hstep.
  destruct Haligned as (Hledger & Htoken & Hwallet).
  destruct Hns as [nodeId credits | options Hpos | i amount | i a pct | i | i].
  - unfold Client.join, Standalone.join, Constants.USDC_DECIMALS,
      parseNumber.
    destruct (printsAsDecimal _); cbn [try bind]; [| reflexivity].
    rewrite Hstep, Hledger by (repeat split; assumption).
    do 2 rewrite run_bind.
    destruct (run c _ w) as [tra [[] wa | e wa]]; [| reflexivity].
    simpl; handles; reflexivity.
  - unfold Client.createProject, Standalone.createProject,
      Client.getProjectCount, Constants.USDC_DECIMALS, parseNumber in *.
    destruct (printsAsDecimal _); cbn [try bind]; [| reflexivity].
    replace (_ >? 0) with true by (symmetry; apply Z.gtb_lt; lia).
    rewrite Hstep, Hledger by (repeat split; assumption).
    do 2 rewrite run_bind.
    destruct (run c _ w) as [tra [[] wa | e wa]]; [| reflexivity].
    simpl; handles; reflexivity.
  - unfold Client.fundProject, Standalone.fundProject,
      Constants.USDC_DECIMALS, parseNumber.
    destruct (printsAsDecimal _); cbn [try bind]; [| reflexivity].
    rewrite Hstep, Hledger by (repeat split; assumption).
    do 2 rewrite run_bind.
    destruct (run c _ w) as [tra [[] wa | e wa]]; [| reflexivity].
    simpl; handles; reflexivity.
  - unfold Client.recordContribution, Standalone.recordContribution.
    rewrite Hledger. simpl; handles; reflexivity.
  - unfold Client.completeProject, Standalone.completeProject.
    rewrite Hledger. simpl; handles; reflexivity.
  - unfold Client.claimRewards, Standalone.claimRewards.
    rewrite Hledger. simpl; handles; reflexivity.
Qed.

Lemma standalone_writes_follow_client_witness :
  run Scenario.mainnet
    (Standalone.fundProject Scenario.standalone 0 (5 # 1)) Scenario.genesis
  = (fst (run Scenario.mainnet
            (Client.fundProject Scenario.client 0 (5 # 1))
            Scenario.genesis),
     mapOutcome TxResult.hash
       (snd (run Scenario.mainnet
               (Client.fundProject Scenario.client 0 (5 # 1))
               Scenario.genesis))).
Proof.
  apply (standalone_writes_follow_client Scenario.mainnet Scenario.client
           Scenario.standalone).
  - repeat split.
  - apply ns_fundProject.
Defined.

(** X5.  With funding that parses, to zero or less, the two
    [createProject] differ by one request.  [Standalone] still reads the
    allowance first; when the token answers a non-negative allowance it
    submits no [approve] and then does exactly what [Client], which
    skips the read, does from there on. *)
Theorem standalone_createProject_reads_allowance (c : Chain)
  (this : Client.HiveMind) (alone : Standalone.HiveMind)
  (options : CreateProjectOptions.t) (amount al : Z) (w w1 : World c) :
  aligned this alone ->
  parseNumber (CreateProjectOptions.funding options) 6 = Ok amount ->
  amount <= 0 ->
  handle c (allowanceRead Standalone.USDC_ADDRESS (Standalone.address alone)
              Standalone.HIVEMIND_ADDRESS) w = (Ok al, w1) ->
  0 <= al ->
  run c (Standalone.createProject alone
           (CreateProjectOptions.name options)
           (CreateProjectOptions.repoUrl options)
           (CreateProjectOptions.funding options)) w
  = (Ev (allowanceRead Standalone.USDC_ADDRESS (Standalone.address alone)
           Standalone.HIVEMIND_ADDRESS) (Ok al)
     :: fst (run c (Client.createProject this options) w1),
     mapOutcome asCreatedProject
       (snd (run c (Client.createProject this options) w1))).
Proof.
  intros (Hledger & Htoken & Hwallet) Hparse Hle Hread Hal.
  unfold Client.createProject, Standalone.createProject,
    Constants.USDC_DECIMALS.
  rewrite !(try_parsed _ _ _ _ _ Hparse).
  unfold Standalone.approveUsdc, Client.getProjectCount, allowanceRead in *.
  replace (_ >? 0) with false
    by (symmetry; rewrite Z.gtb_ltb; apply Z.ltb_ge; lia).
  rewrite Hledger. simpl run. rewrite Hread.
  replace (al <? _) with false by (symmetry; apply Z.ltb_ge; lia).
  simpl; handles; reflexivity.
Qed.

Lemma standalone_createProject_reads_allowance_witness :
  requests
    (fst (run Scenario.mainnet
            (Standalone.createProject Scenario.standalone "Docs"
               "https://github.com/org/docs" 0%Q) Scenario.genesis))
  = allowanceRead Standalone.USDC_ADDRESS
      "0x0000000000000000000000000000000000000001"
      Standalone.HIVEMIND_ADDRESS
    :: requests
         (fst (run Scenario.mainnet
                 (Client.createProject Scenario.client
                    {| CreateProjectOptions.name := "Docs";
                       CreateProjectOptions.repoUrl :=
                         "https://github.com/org/docs";
                       CreateProjectOptions.funding := 0%Q |})
                 Scenario.genesis)).
Proof.
  assert (Haligned : aligned Scenario.client Scenario.standalone)
    by (repeat split).
  assert (Hle : 0 <= 0) by discriminate.
  assert (Hal : 0 <= 0) by discriminate.
  exact (f_equal (fun r => requests (fst r))
           (standalone_createProject_reads_allowance Scenario.mainnet
              Scenario.client Scenario.standalone
              {| CreateProjectOptions.name := "Docs";
                 CreateProjectOptions.repoUrl :=
                   "https://github.com/org/docs";
                 CreateProjectOptions.funding := 0%Q |}
              0 0 Scenario.genesis Scenario.genesis Haligned eq_refl Hle
              eq_refl Hal)).
Defined.

(** ** Transactions and rejections *)

(** X6.  No write operation of either client ever submits more than two
    transactions, and never the same one twice: in every run the
    transactions submitted are, in order, nothing, or the [approve] for
    the ceiling, or the primary transaction, or that [approve] followed
    by the primary transaction. *)
Theorem writes_submit_at_most_two (c : Chain) :
  (forall R p ledger fn proj,
      write_operation R p ledger fn proj ->
      forall w : World c,
      exists token,
        In (filter isTransaction (requests (fst (run c p w))))
           [[]; [approveTx token ledger]; [writeContract ledger fn];
            [approveTx token ledger; writeContract ledger fn]]) /\
  (forall R p ledger fn proj,
      standalone_write_operation R p ledger fn proj ->
      forall w : World c,
      exists token,
        In (filter isTransaction (requests (fst (run c p w))))
           [[]; [approveTx token ledger]; [writeContract ledger fn];
            [approveTx token ledger; writeContract ledger fn]]).
Proof.
  split; intros R p ledger fn proj Hop w.
  - destruct Hop; exists (Client.usdcAddress this);
      unfold Client.join, Client.createProject, Client.fundProject,
        Client.recordContribution, Client.completeProject,
        Client.claimRewards, Client.ensureApproval, parseNumber;
      repeat match goal with
             | |- context [if ?b then _ else _] => destruct b
             end;
      simpl; handles;
      repeat match goal with
             | |- context [if ?b then _ else _] => destruct b; simpl; handles
             end;
      simpl; auto 6.
  - destruct Hop; exists Standalone.USDC_ADDRESS;
      unfold Standalone.join, Standalone.createProject,
        Standalone.fundProject, Standalone.recordContribution,
        Standalone.completeProject, Standalone.claimRewards,
        Standalone.approveUsdc, parseNumber;
      repeat match goal with
             | |- context [if ?b then _ else _] => destruct b
             end;
      simpl; handles;
      repeat match goal with
             | |- context [if ?b then _ else _] => destruct b; simpl; handles
             end;
      simpl; auto 6.
Qed.

Lemma writes_submit_at_most_two_witness :
  exists token,
    In (filter isTransaction
          (requests
             (fst (run Scenario.mainnet
                     (Client.fundProject Scenario.client 0 (5 # 1))
                     Scenario.genesis))))
       [[]; [approveTx token Standalone.HIVEMIND_ADDRESS];
        [writeContract Standalone.HIVEMIND_ADDRESS
           (Abi.fundProject 0 5000000)];
        [approveTx token Standalone.HIVEMIND_ADDRESS;
         writeContract Standalone.HIVEMIND_ADDRESS
           (Abi.fundProject 0 5000000)]].
Proof.
  exact (proj1 (writes_submit_at_most_two Scenario.mainnet) _ _ _ _ _
           (wo_fundProject Scenario.client 0 (5 # 1)) Scenario.genesis).
Defined.

(** X7.  When the authorization step of a funding-bearing write is
    rejected (at the allowance read, at the [approve] or at the wait for
    its receipt), the write stops there: its log and final state are
    those of the step, it rejects with the same error, and the primary
    transaction is never submitted. *)
Theorem rejected_authorization_stops_write (c : Chain) R p a token owner
  spender amount primary (w wa : World c) tra e :
  funding_write R p a token owner spender amount primary ->
  run c a w = (tra, Rejected e wa) ->
  run c p w = (tra, Rejected e wa) /\
  ~ In primary (requests tra).
Proof.
  intros Hfw Hrun.
  destruct (funding_write_shape c _ _ _ _ _ _ _ _ Hfw)
    as (Hstep & Hprimary & k & -> & _).
  split.
  - rewrite run_bind, Hrun. reflexivity.
  - rewrite (run_approval_step c _ _ _ _ _ w Hstep) in Hrun.
    assert (Hneq1 : primary <> allowanceRead token owner spender)
      by (intros ->; discriminate Hprimary).
    assert (Hneq2 : primary <> approveTx token spender)
      by (intros ->; discriminate Hprimary).
    assert (Hneq3 : forall h, primary <> waitForTransactionReceipt h)
      by (intros h ->; discriminate Hprimary).
    destruct (handle c (allowanceRead token owner spender) w)
      as [[al | e1] w1].
    + destruct (al <? amount); [| discriminate Hrun].
      destruct (handle c (approveTx token spender) w1) as [[h | e2] w2].
      * destruct (handle c (waitForTransactionReceipt h) w2)
          as [[rc | e3] w3]; [discriminate Hrun |].
        injection Hrun as <- _ _. simpl.
        intros [H | [H | [H | []]]]; symmetry in H;
          [exact (Hneq1 H) | exact (Hneq2 H) | exact (Hneq3 h H)].
      * injection Hrun as <- _ _. simpl.
        intros [H | [H | []]]; symmetry in H;
          [exact (Hneq1 H) | exact (Hneq2 H)].
    + injection Hrun as <- _ _. simpl.
      intros [H | []]; symmetry in H; exact (Hneq1 H).
Qed.

Lemma rejected_authorization_stops_write_witness :
  run (Sim.chain "0x0000000000000000000000000000000000000001"
         Standalone.HIVEMIND_ADDRESS "0xdead")
    (Client.fundProject Scenario.client 0 (5 # 1)) Scenario.genesis
  = ([Ev (allowanceRead Standalone.USDC_ADDRESS
            "0x0000000000000000000000000000000000000001"
            Standalone.HIVEMIND_ADDRESS) (Err "execution reverted")],
     Rejected "execution reverted" Scenario.genesis).
Proof.
  apply (rejected_authorization_stops_write
           (Sim.chain "0x0000000000000000000000000000000000000001"
              Standalone.HIVEMIND_ADDRESS "0xdead")
           _ _ _ _ _ _ _ _ Scenario.genesis Scenario.genesis _ _
           (fw_fundProject Scenario.client 0 (5 # 1) 5000000 eq_refl)).
  reflexivity.
Defined.

(** X8.  [createProject] can reject after the project was created: when
    the creation transaction is submitted and confirmed but the count
    re-read that follows is rejected, the call rejects with that read's
    error, in both clients; neither the hash nor an id reaches the
    caller, although the log shows the obtained receipt. *)
Theorem createProject_rejects_after_confirmation (c : Chain) R p pre ledger
  fn proj (w wa w1 w2 w3 : World c) tra h rc e :
  project_creation R p pre ledger fn proj ->
  run c pre w = (tra, Fulfilled tt wa) ->
  handle c (writeContract ledger fn) wa = (Ok h, w1) ->
  handle c (waitForTransactionReceipt h) w1 = (Ok rc, w2) ->
  handle c (readContract ledger Abi.projectCount) w2 = (Err e, w3) ->
  run c p w =
    (tra ++ [Ev (writeContract ledger fn) (Ok h);
             Ev (waitForTransactionReceipt h) (Ok rc);
             Ev (readContract ledger Abi.projectCount) (Err e)],
     Rejected e w3).
Proof.
  intros Hpc Hpre Hsubmit Hwait Hcount.
  destruct Hpc as [this options amount Hparse
                  | this name repoUrl funding amount Hparse].
  - unfold Client.createProject. rewrite (try_parsed _ _ _ _ _ Hparse).
    rewrite run_bind, Hpre. simpl run.
    rewrite Hsubmit. simpl. rewrite Hwait. simpl. rewrite Hcount.
    reflexivity.
  - unfold Standalone.createProject. rewrite (try_parsed _ _ _ _ _ Hparse).
    rewrite run_bind, Hpre. simpl run.
    rewrite Hsubmit. simpl. rewrite Hwait. simpl. rewrite Hcount.
    reflexivity.
Qed.

Lemma createProject_rejects_after_confirmation_witness :
  exists w3,
    run Scenario.failing
      (Client.createProject Scenario.client
         {| CreateProjectOptions.name := "Docs";
            CreateProjectOptions.repoUrl := "https://github.com/org/docs";
            CreateProjectOptions.funding := 1 # 1 |})
      Scenario.genesis
    = ([Ev (allowanceRead Standalone.USDC_ADDRESS
              "0x0000000000000000000000000000000000000001"
              Standalone.HIVEMIND_ADDRESS) (Ok 0);
        Ev (approveTx Standalone.USDC_ADDRESS Standalone.HIVEMIND_ADDRESS)
           (Ok "0x7");
        Ev (waitForTransactionReceipt "0x7")
           (Ok {| receipt_blockNumber := 101 |})]
       ++ [Ev (writeContract Standalone.HIVEMIND_ADDRESS
                 (Abi.createProject "Docs" "https://github.com/org/docs"
                    1000000)) (Ok "0x8");
           Ev (waitForTransactionReceipt "0x8")
              (Ok {| receipt_blockNumber := 102 |});
           Ev (readContract Standalone.HIVEMIND_ADDRESS Abi.projectCount)
              (Err "request timed out")],
       Rejected "request timed out" w3).
Proof.
  assert (H := fun wa w1 w2 w3 tra h rc e =>
                 createProject_rejects_after_confirmation Scenario.failing
                   _ _ _ _ _ _ Scenario.genesis wa w1 w2 w3 tra h rc e
                   (pc_client Scenario.client
                      {| CreateProjectOptions.name := "Docs";
                         CreateProjectOptions.repoUrl :=
                           "https://github.com/org/docs";
                         CreateProjectOptions.funding := 1 # 1 |}
                      1000000 eq_refl)).
  eexists. eapply H; reflexivity.
Defined.

(** ** Authorizing again *)

(** What the authorization step leaves as allowance, on a chain whose
    token keeps allowances. *)
Lemma approval_step_allowance (c : Chain) a token owner spender amount
  (w wa : World c) tr (before : Z) :
  approval_step a token owner spender amount ->
  erc20_allowance c token owner spender ->
  observe c (allowanceRead token owner spender) w = Ok before ->
  run c a w = (tr, Fulfilled tt wa) ->
  observe c (allowanceRead token owner spender) wa
  = Ok (if before <? amount then CEILING else before).
Proof.
  intros Hstep [Hstable Hset] Hbefore Hrun.
  rewrite (run_approval_step c _ _ _ _ _ w Hstep) in Hrun.
  unfold observe in Hbefore.
  destruct (handle c (allowanceRead token owner spender) w)
    as [[al | e] w1] eqn:Hread; [| discriminate Hrun].
  simpl in Hbefore. injection Hbefore as ->.
  destruct (before <? amount).
  - destruct (handle c (approveTx token spender) w1)
      as [[h | e] w2] eqn:Hsubmit; [| discriminate Hrun].
    destruct (handle c (waitForTransactionReceipt h) w2)
      as [[rc | e] w3] eqn:Hwait; [| discriminate Hrun].
    injection Hrun as _ <-. exact (Hset _ _ _ _ _ _ Hsubmit Hwait).
  - injection Hrun as _ <-. exact (Hstable _ _ _ Hread).
Qed.

(** X9.  Running the authorization step again right after it completed,
    for the same amount, on a chain whose token keeps allowances: when
    the amount is at most the ceiling of 10^12, or was already covered,
    the second run only reads the allowance and completes without an
    [approve]; when the amount is above the ceiling and was not covered,
    the second run submits the very same [approve] again, so the step
    never settles for such an amount. *)
Theorem authorization_repeated (c : Chain) a token owner spender amount
  (w w1 : World c) tr1 tr2 o2 (before : Z) :
  approval_step a token owner spender amount ->
  erc20_allowance c token owner spender ->
  observe c (allowanceRead token owner spender) w = Ok before ->
  run c a w = (tr1, Fulfilled tt w1) ->
  run c a w1 = (tr2, o2) ->
  (amount <= CEILING \/ amount <= before ->
   requests tr2 = [allowanceRead token owner spender] /\
   exists w2, o2 = Fulfilled tt w2) /\
  (CEILING < amount -> before < amount ->
   approvals tr2 = [approveTx token spender]).
Proof.
  intros Hstep Herc Hbefore Hrun1 Hrun2.
  pose proof (approval_step_allowance c _ _ _ _ _ _ _ _ _
                Hstep Herc Hbefore Hrun1) as Hafter.
  rewrite (run_approval_step c _ _ _ _ _ w1 Hstep) in Hrun2.
  unfold observe in Hafter.
  destruct (handle c (allowanceRead token owner spender) w1)
    as [[al | e] w2]; simpl in Hafter; [| discriminate Hafter].
  injection Hafter as ->.
  split.
  - intros Hcovered.
    assert (Hge : ((if before <? amount then CEILING else before) <? amount)
                  = false).
    { apply Z.ltb_ge. destruct (Z.ltb_spec before amount); lia. }
    rewrite Hge in Hrun2. injection Hrun2 as <- <-.
    split; [reflexivity | eexists; reflexivity].
  - intros Habove Hlt.
    assert (Hb : (before <? amount) = true) by (apply Z.ltb_lt; lia).
    rewrite Hb in Hrun2.
    assert (Hc : (CEILING <? amount) = true) by (apply Z.ltb_lt; lia).
    rewrite Hc in Hrun2.
    destruct (handle c (approveTx token spender) w2) as [[h | e] w3].
    + destruct (handle c (waitForTransactionReceipt h) w3)
        as [[rc | e] w4]; injection Hrun2 as <- _; reflexivity.
    + injection Hrun2 as <- _; reflexivity.
Qed.

Lemma authorization_repeated_witness :
  approvals
    (fst (run Scenario.mainnet
            (Client.ensureApproval Scenario.client (CEILING + 1))
            (Sim.mined
               (Sim.setAllowance "0x0000000000000000000000000000000000000001"
                  Standalone.HIVEMIND_ADDRESS CEILING Scenario.genesis))))
  = [approveTx Standalone.USDC_ADDRESS Standalone.HIVEMIND_ADDRESS].
Proof.
  assert (H := fun tr1 tr2 o2 =>
                 authorization_repeated Scenario.mainnet _ _ _ _
                   (CEILING + 1) Scenario.genesis
                   (Sim.mined
                      (Sim.setAllowance
                         "0x0000000000000000000000000000000000000001"
                         Standalone.HIVEMIND_ADDRESS CEILING
                         Scenario.genesis))
                   tr1 tr2 o2 0
                   (step_ensureApproval Scenario.client (CEILING + 1))
                   (sim_erc20_allowance _ _ _ _) eq_refl).
  edestruct H as [_ Hagain]; [reflexivity | reflexivity |].
  apply Hagain; reflexivity.
Defined.

(** X10.  The authorization step can lower an allowance: when the
    caller's allowance is above the ceiling of 10^12 but below the
    requested amount, the step approves the ceiling, and the allowance it
    leaves is smaller than the one it found. *)
Theorem authorization_can_lower_allowance (c : Chain) a token owner spender
  amount (w wa : World c) tr (before : Z) :
  approval_step a token owner spender amount ->
  erc20_allowance c token owner spender ->
  observe c (allowanceRead token owner spender) w = Ok before ->
  CEILING < before < amount ->
  run c a w = (tr, Fulfilled tt wa) ->
  approvals tr = [approveTx token spender] /\
  observe c (allowanceRead token owner spender) wa = Ok CEILING /\
  CEILING < before.
Proof.
  intros Hstep Herc Hbefore Hrange Hrun.
  pose proof (approval_step_allowance c _ _ _ _ _ _ _ _ _
                Hstep Herc Hbefore Hrun) as Hafter.
  assert (Hb : (before <? amount) = true) by (apply Z.ltb_lt; lia).
  rewrite Hb in Hafter.
  split; [| split; [exact Hafter | lia]].
  rewrite (run_approval_step c _ _ _ _ _ w Hstep) in Hrun.
  unfold observe in Hbefore.
  destruct (handle c (allowanceRead token owner spender) w)
    as [[al | e] w1]; simpl in Hbefore; [| discriminate Hbefore].
  injection Hbefore as ->. rewrite Hb in Hrun.
  destruct (handle c (approveTx token spender) w1) as [[h | e] w2];
    [| discriminate Hrun].
  destruct (handle c (waitForTransactionReceipt h) w2) as [[rc | e] w3];
    [| discriminate Hrun].
  injection Hrun as <- _. reflexivity.
Qed.

Lemma authorization_can_lower_allowance_witness :
  observe Scenario.mainnet
    (allowanceRead Standalone.USDC_ADDRESS
       "0x0000000000000000000000000000000000000001"
       Standalone.HIVEMIND_ADDRESS)
    (Sim.mined
       (Sim.setAllowance "0x0000000000000000000000000000000000000001"
          Standalone.HIVEMIND_ADDRESS CEILING
          (Scenario.granted (CEILING + 5))))
  = Ok CEILING.
Proof.
  assert (Hrange : CEILING < CEILING + 5 < CEILING + 9)
    by (split; reflexivity).
  assert (H := fun tr =>
                 authorization_can_lower_allowance Scenario.mainnet _ _ _ _
                   (CEILING + 9) (Scenario.granted (CEILING + 5))
                   (Sim.mined
                      (Sim.setAllowance
                         "0x0000000000000000000000000000000000000001"
                         Standalone.HIVEMIND_ADDRESS CEILING
                         (Scenario.granted (CEILING + 5))))
                   tr (CEILING + 5)
                   (step_ensureApproval Scenario.client (CEILING + 9))
                   (sim_erc20_allowance _ _ _ _) eq_refl Hrange).
  edestruct H as (_ & Hafter & _); [reflexivity |].
  exact Hafter.
Defined.

(** ** Construction, again *)

Lemma startsWith_prefixed (k : string) :
  startsWith ("0x" ++ k)%string "0x" = true.
Proof.
  unfold startsWith. cbn [append prefix].
  repeat match goal with
         | |- context [ascii_dec ?a ?b] =>
             destruct (ascii_dec a b) as [_ | H];
             [| contradiction H; reflexivity]
         end.
  destruct k; reflexivity.
Qed.

(** X11.  Key normalization always yields a key that starts with [0x],
    adds the prefix at most once (normalizing a normalized key changes
    nothing), and never drops or alters a character of the key: the
    result is the key itself or the key behind the two prefix
    characters. *)
Theorem normalizedKey_prefixes_once (config : Client.Config.t) :
  let k := Client.Config.privateKey config in
  let k' := Client.normalizedKey config in
  startsWith k' "0x" = true /\
  Client.normalizedKey
    {| Client.Config.privateKey := k';
       Client.Config.chain := Client.Config.chain config;
       Client.Config.rpcUrl := Client.Config.rpcUrl config |} = k' /\
  (k' = k \/ k' = ("0x" ++ k)%string) /\
  (k' = k <-> startsWith k "0x" = true).
Proof.
  cbv zeta. unfold Client.normalizedKey. cbn [Client.Config.privateKey].
  destruct (startsWith (Client.Config.privateKey config) "0x") eqn:Hk.
  - rewrite Hk. repeat split; auto.
  - rewrite !startsWith_prefixed.
    split; [reflexivity | split; [reflexivity | split; [auto |]]].
    split; [| discriminate].
    intros Heq. apply (f_equal String.length) in Heq. simpl in Heq. lia.
Qed.

(** X12.  [Client]'s constructor sees the key only through its
    normalized form, and fails for no other reason than the key: it
    gives the same outcome for a key and for that key normalized; it
    fails exactly when the derivation rejects the normalized key, with
    the derivation's error; and when the derivation succeeds it returns
    a client for that account whose two RPC clients share one chain and
    one endpoint, the override if given, else the chain's default. *)
Theorem constructor_fails_only_on_key
  (privateKeyToAccount : string -> Result PrivateKeyAccount)
  (config : Client.Config.t) :
  Client.constructor privateKeyToAccount config
  = Client.constructor privateKeyToAccount
      {| Client.Config.privateKey := Client.normalizedKey config;
         Client.Config.chain := Client.Config.chain config;
         Client.Config.rpcUrl := Client.Config.rpcUrl config |} /\
  (forall e,
      privateKeyToAccount (Client.normalizedKey config) = Err e <->
      Client.constructor privateKeyToAccount config = Err e) /\
  (forall acct,
      privateKeyToAccount (Client.normalizedKey config) = Ok acct ->
      exists this,
        Client.constructor privateKeyToAccount config = Ok this /\
        Client.account this = acct /\
        Client.wallet_account (Client.walletClient this) = acct /\
        Client.public_chain (Client.publicClient this)
        = Client.wallet_chain (Client.walletClient this) /\
        Client.public_transport (Client.publicClient this)
        = Client.wallet_transport (Client.walletClient this) /\
        Client.public_transport (Client.publicClient this)
        = nullish (Client.Config.rpcUrl config)
            (Constants.rpcUrl
               (Constants.CHAINS
                  (nullish (Client.Config.chain config) base)))).
Proof.
  split; [| split].
  - unfold Client.constructor.
    destruct (normalizedKey_prefixes_once config) as (_ & -> & _).
    reflexivity.
  - intros e. unfold Client.constructor.
    destruct (privateKeyToAccount (Client.normalizedKey config)).
    + split; discriminate.
    + split; intros H; injection H as ->; reflexivity.
  - intros acct Hacct. unfold Client.constructor. rewrite Hacct.
    eexists; split; [reflexivity |]. simpl. repeat split.
Qed.

Lemma constructor_fails_only_on_key_witness :
  exists this,
    Client.constructor Scenario.privateKeyToAccount
      {| Client.Config.privateKey := Scenario.key;
         Client.Config.chain := Some baseSepolia;
         Client.Config.rpcUrl := Some "http://localhost:8545" |}
    = Ok this /\
    Client.account this = Scenario.alice /\
    Client.wallet_account (Client.walletClient this) = Scenario.alice /\
    Client.public_chain (Client.publicClient this)
    = Client.wallet_chain (Client.walletClient this) /\
    Client.public_transport (Client.publicClient this)
    = Client.wallet_transport (Client.walletClient this) /\
    Client.public_transport (Client.publicClient this)
    = "http://localhost:8545".
Proof.
  exact (proj2 (proj2
           (constructor_fails_only_on_key Scenario.privateKeyToAccount
              {| Client.Config.privateKey := Scenario.key;
                 Client.Config.chain := Some baseSepolia;
                 Client.Config.rpcUrl := Some "http://localhost:8545" |}))
           Scenario.alice eq_refl).
Defined.

(** X13.  A [Client] built for the default chain (no chain given, or
    [base]) and a [Standalone] built from the same key in its prefixed
    form, with the same RPC override, come out alike: whenever the
    first is constructed so is the second, and they hold the same
    account, talk to the same ledger and token contracts, and use the
    same endpoint. *)
Theorem default_clients_aligned
  (privateKeyToAccount : string -> Result PrivateKeyAccount)
  (config : Client.Config.t) (this : Client.HiveMind) :
  Client.Config.chain config = None \/
  Client.Config.chain config = Some base ->
  Client.constructor privateKeyToAccount config = Ok this ->
  exists alone,
    Standalone.constructor privateKeyToAccount
      {| Standalone.Config.privateKey := Client.normalizedKey config;
         Standalone.Config.rpcUrl := Client.Config.rpcUrl config;
         Standalone.Config.chain := Client.Config.chain config |}
    = Ok alone /\
    aligned this alone /\
    Client.account this = Standalone.account alone /\
    Client.public_transport (Client.publicClient this)
    = Standalone.public_transport (Standalone.publicClient alone).
Proof.
  intros Hchain Hthis.
  unfold Client.constructor in Hthis.
  unfold Standalone.constructor; simpl Standalone.Config.privateKey.
  destruct (privateKeyToAccount (Client.normalizedKey config)) as [acct | e];
    [| discriminate Hthis].
  injection Hthis as <-.
  eexists; split; [reflexivity |].
  destruct Hchain as [-> | ->]; repeat split.
Qed.

Lemma default_clients_aligned_witness :
  exists alone,
    Standalone.constructor Scenario.privateKeyToAccount
      {| Standalone.Config.privateKey := ("0x" ++ Scenario.key)%string;
         Standalone.Config.rpcUrl := None;
         Standalone.Config.chain := None |}
    = Ok alone /\
    aligned Scenario.client alone /\
    Client.account Scenario.client = Standalone.account alone /\
    Client.public_transport (Client.publicClient Scenario.client)
    = Standalone.public_transport (Standalone.publicClient alone).
Proof.
  exact (default_clients_aligned Scenario.privateKeyToAccount
           {| Client.Config.privateKey := Scenario.key;
              Client.Config.chain := None;
              Client.Config.rpcUrl := None |}
           Scenario.client (or_introl eq_refl) eq_refl).
Defined.

(** ** Lookups side by side *)

(** X14.  When [Client] talks to the ledger [Standalone] has built in,
    the two [getProject] issue the same two reads and settle alike:
    [Standalone] fulfils with [Client]'s record in which the numeric
    status is replaced by its entry in the status name table, and
    rejects with the same error. *)
Theorem standalone_getProject_follows_client (c : Chain)
  (this : Client.HiveMind) (projectId : Z) (w : World c) :
  Client.hivemindAddress this = Standalone.HIVEMIND_ADDRESS ->
  run c (Standalone.getProject projectId) w
  = (fst (run c (Client.getProject this projectId) w),
     mapOutcome asStandaloneProject
       (snd (run c (Client.getProject this projectId) w))).
Proof.
  intros Hledger.
  unfold Client.getProject, Standalone.getProject. rewrite Hledger.
  simpl; handles; reflexivity.
Qed.

Lemma standalone_getProject_follows_client_witness :
  run Scenario.mainnet (Standalone.getProject 1) Scenario.genesis
  = (fst (run Scenario.mainnet (Client.getProject Scenario.client 1)
            Scenario.genesis),
     mapOutcome asStandaloneProject
       (snd (run Scenario.mainnet (Client.getProject Scenario.client 1)
               Scenario.genesis))).
Proof.
  exact (standalone_getProject_follows_client Scenario.mainnet
           Scenario.client 1 Scenario.genesis eq_refl).
Defined.

Lemma statusMap_undefined (s : Z) :
  index Standalone.statusMap s = None <-> ~ 0 <= s < 3.
Proof.
  unfold index.
  destruct (Z.ltb_spec s 0) as [Hneg | Hnonneg].
  - split; [lia | reflexivity].
  - rewrite nth_error_None. simpl List.length. split; lia.
Qed.

(** X15.  Neither client checks the status the ledger reports.  Whatever
    [uint8] comes back, both [getProject] fulfil: [Client] hands the
    number on unchanged, so outside 0..2 its status is none of the three
    enumerated values; [Standalone] looks the number up in its table of
    three names and returns an undefined status exactly when the number
    is outside 0..2. *)
Theorem getProject_status_unchecked (c : Chain) (this : Client.HiveMind)
  (projectId : Z) (t : ProjectsOutput) (cs : list Address) :
  (forall w w1 w2 : World c,
      handle c (readContract (Client.hivemindAddress this)
                  (Abi.projects projectId)) w = (Ok t, w1) ->
      handle c (readContract (Client.hivemindAddress this)
                  (Abi.getContributors projectId)) w1 = (Ok cs, w2) ->
      exists p,
        snd (run c (Client.getProject this projectId) w) = Fulfilled p w2 /\
        Project.status p = out_status t /\
        (~ 0 <= out_status t < 3 ->
         ~ In (Project.status p)
             [ProjectStatus.Active; ProjectStatus.Completed;
              ProjectStatus.Cancelled])) /\
  (forall w w1 w2 : World c,
      handle c (readContract Standalone.HIVEMIND_ADDRESS
                  (Abi.projects projectId)) w = (Ok t, w1) ->
      handle c (readContract Standalone.HIVEMIND_ADDRESS
                  (Abi.getContributors projectId)) w1 = (Ok cs, w2) ->
      exists p,
        snd (run c (Standalone.getProject projectId) w) = Fulfilled p w2 /\
        (Standalone.Project.status p = None <-> ~ 0 <= out_status t < 3)).
Proof.
  split; intros w w1 w2 Hproject Hcontributors.
  - unfold Client.getProject, BigInt. simpl run.
    rewrite Hproject, Hcontributors.
    eexists; split; [reflexivity |]. simpl.
    split; [reflexivity |].
    unfold ProjectStatus.Active, ProjectStatus.Completed,
      ProjectStatus.Cancelled.
    intros Hout [H | [H | [H | []]]]; lia.
  - unfold Standalone.getProject, BigInt. simpl run.
    rewrite Hproject, Hcontributors.
    eexists; split; [reflexivity |].
    cbn [Standalone.Project.status]. apply statusMap_undefined.
Qed.

Lemma getProject_status_unchecked_witness :
  exists p,
    snd (run Scenario.mainnet (Standalone.getProject 1) Scenario.genesis)
    = Fulfilled p Scenario.genesis /\
    (Standalone.Project.status p = None
     <-> ~ 0 <= out_status Scenario.openclaw < 3).
Proof.
  exact (proj2 (getProject_status_unchecked Scenario.mainnet Scenario.client
                  1 Scenario.openclaw [Scenario.bob])
           Scenario.genesis Scenario.genesis Scenario.genesis
           eq_refl eq_refl).
Defined.

(** X16.  On the same ledger the two [getAgent] give the same answer
    exactly for the tuples on which the two sentinels coincide, that is
    when the join timestamp is zero precisely if the active flag is off;
    on every other tuple one returns null and the other a record. *)
Theorem getAgent_variants_agree_iff (c : Chain) (this : Client.HiveMind)
  (a : Address) (t : AgentsOutput) (w w1 : World c) :
  Client.hivemindAddress this = Standalone.HIVEMIND_ADDRESS ->
  handle c (readContract Standalone.HIVEMIND_ADDRESS (Abi.agents a)) w
  = (Ok t, w1) ->
  (run c (Client.getAgent this (Some a)) w
   = run c (Standalone.getAgent a) w
   <-> (out_joinedAt t = 0 <-> out_active t = false)).
Proof.
  intros Hledger Hread.
  unfold Client.getAgent, Standalone.getAgent. rewrite Hledger.
  simpl run. rewrite Hread.
  destruct (Z.eqb_spec (out_joinedAt t) 0) as [Hz | Hnz];
    destruct (out_active t); simpl;
    (split;
     [ intros H;
       first [ discriminate H
             | split; intros;
               first [assumption | reflexivity | contradiction
                     | discriminate] ]
     | intros [H1 H2];
       first [ reflexivity
             | specialize (H1 Hz); discriminate H1
             | specialize (H2 eq_refl); contradiction ] ]).
Qed.

Lemma getAgent_variants_agree_iff_witness :
  run Scenario.mainnet
    (Client.getAgent Scenario.client
       (Some "0x0000000000000000000000000000000000000001"))
    Scenario.genesis
  = run Scenario.mainnet
      (Standalone.getAgent "0x0000000000000000000000000000000000000001")
      Scenario.genesis.
Proof.
  apply (getAgent_variants_agree_iff Scenario.mainnet Scenario.client
           "0x0000000000000000000000000000000000000001" Sim.noAgent
           Scenario.genesis Scenario.genesis eq_refl eq_refl).
  split; reflexivity.
Defined.

(** ** Explorer links *)

Lemma append_cancel (a b b' : string) :
  (a ++ b)%string = (a ++ b')%string -> b = b'.
Proof.
  induction a as [| ch a IH]; simpl; intros H.
  - exact H.
  - injection H as H. exact (IH H).
Qed.

(** X17.  The explorer link of a constructed [Client] depends on the
    chain alone, not on the key or the RPC override: it is the explorer
    base of the configured chain (of [base] when none is configured),
    then [/tx/], then the hash; and two hashes that give the same link
    are the same hash. *)
Theorem explorer_url_by_chain
  (privateKeyToAccount : string -> Result PrivateKeyAccount)
  (config : Client.Config.t) (this : Client.HiveMind) (h h' : Hash) :
  Client.constructor privateKeyToAccount config = Ok this ->
  Client.getExplorerUrl this h
  = (match nullish (Client.Config.chain config) base with
     | base => "https://basescan.org"
     | baseSepolia => "https://sepolia.basescan.org"
     end ++ "/tx/" ++ h)%string /\
  (Client.getExplorerUrl this h = Client.getExplorerUrl this h' -> h = h').
Proof.
  intros Hthis. unfold Client.constructor in Hthis.
  destruct (privateKeyToAccount (Client.normalizedKey config));
    [| discriminate Hthis].
  injection Hthis as <-.
  unfold Client.getExplorerUrl; cbn [Client.chain].
  split.
  - destruct (nullish (Client.Config.chain config) base); reflexivity.
  - intros H. apply append_cancel in H. apply append_cancel in H. exact H.
Qed.

Lemma explorer_url_by_chain_witness :
  Client.getExplorerUrl Scenario.client "0xabc"
  = "https://basescan.org/tx/0xabc".
Proof.
  exact (proj1 (explorer_url_by_chain Scenario.privateKeyToAccount
                  {| Client.Config.privateKey := Scenario.key;
                     Client.Config.chain := None;
                     Client.Config.rpcUrl := Some "http://localhost:8545" |}
                  {| Client.publicClient :=
                       {| Client.public_chain := base;
                          Client.public_transport :=
                            "http://localhost:8545" |};
                     Client.walletClient :=
                       {| Client.wallet_account := Scenario.alice;
                          Client.wallet_chain := base;
                          Client.wallet_transport :=
                            "http://localhost:8545" |};
                     Client.account := Scenario.alice;
                     Client.chain := base;
                     Client.viemChain := base;
                     Client.hivemindAddress :=
                       Constants.hivemind (Constants.CONTRACTS base);
                     Client.usdcAddress :=
                       Constants.usdc (Constants.CONTRACTS base) |}
                  "0xabc" "0xabc" eq_refl)).
Defined.

(** ** Amounts that do not parse *)

(** When [toString] prints an exponent. *)
Lemma printsAsDecimal_false (n : Q) :
  printsAsDecimal n = false <->
  ~ n == 0 /\ (Qabs n < 1 # 1000000 \/ inject_Z (10 ^ 21) <= Qabs n)%Q.
Proof.
  unfold printsAsDecimal.
  assert (Hzero : (Qnum n =? 0) = true <-> n == 0).
  { rewrite Z.eqb_eq. unfold Qeq; simpl. lia. }
  assert (Hsmall : Qle_bool (1 # 1000000) (Qabs n) = false
                   <-> (Qabs n < 1 # 1000000)%Q).
  { rewrite <- Bool.not_true_iff_false, Qle_bool_iff.
    split; [apply Qnot_le_lt | apply Qlt_not_le]. }
  rewrite Bool.orb_false_iff, Bool.andb_false_iff, Bool.negb_false_iff.
  rewrite Hsmall, Qle_bool_iff, <- Hzero, Bool.not_true_iff_false.
  reflexivity.
Qed.

(** X18.  [join], [createProject] and [fundProject] of either client
    parse the amount from what [toString] prints.  When that carries an
    exponent (a nonzero amount below 1e-6 in magnitude, or one of 1e21
    or more), the call is rejected before any request is issued: the
    log is empty, the state untouched, the error the parser's.
    Otherwise the call issues at least one request. *)
Theorem unprintable_amount_rejected (c : Chain) (R : Type) (p : Prog R)
  (n : Q) (w : World c) :
  parses_amount R p n ->
  (~ n == 0 ->
   (Qabs n < 1 # 1000000 \/ inject_Z (10 ^ 21) <= Qabs n)%Q ->
   run c p w = ([], Rejected InvalidDecimalNumberError w)) /\
  (n == 0 \/ (1 # 1000000 <= Qabs n /\ Qabs n < inject_Z (10 ^ 21))%Q ->
   fst (run c p w) <> []).
Proof.
  intros Hpa. split.
  - intros Hnz Hrange.
    assert (Hprint : printsAsDecimal n = false)
      by (apply printsAsDecimal_false; split; assumption).
    destruct Hpa;
      unfold Client.join, Client.createProject, Client.fundProject,
        Standalone.join, Standalone.createProject, Standalone.fundProject,
        parseNumber;
      rewrite Hprint; reflexivity.
  - intros Hrange.
    assert (Hprint : printsAsDecimal n = true).
    { destruct (printsAsDecimal n) eqn:Hp; [reflexivity |].
      apply printsAsDecimal_false in Hp as [Hnz Hout].
      destruct Hrange as [Hz | [Hlow Hhigh]]; [contradiction |].
      destruct Hout as [Hout | Hout].
      - exfalso. exact (Qlt_not_le _ _ Hout Hlow).
      - exfalso. exact (Qlt_not_le _ _ Hhigh Hout). }
    destruct Hpa;
      unfold Client.join, Client.createProject, Client.fundProject,
        Standalone.join, Standalone.createProject, Standalone.fundProject,
        parseNumber;
      rewrite Hprint; cbn [try bind]; logged.
Qed.

Lemma unprintable_amount_rejected_witness :
  run Scenario.mainnet
    (Client.join Scenario.client "alice-node" (Some (5 # 10000000)))
    Scenario.genesis
  = ([], Rejected InvalidDecimalNumberError Scenario.genesis) /\
  fst (run Scenario.mainnet
         (Client.join Scenario.client "alice-node" (Some (5 # 1)))
         Scenario.genesis) <> [].
Proof.
  split.
  - apply (proj1 (unprintable_amount_rejected Scenario.mainnet _ _ _
                    Scenario.genesis
                    (pa_join Scenario.client "alice-node"
                       (Some (5 # 10000000))))).
    + discriminate.
    + left. reflexivity.
  - apply (proj2 (unprintable_amount_rejected Scenario.mainnet _ _ _
                    Scenario.genesis
                    (pa_join Scenario.client "alice-node" (Some (5 # 1))))).
    right. split; [discriminate | reflexivity].
Defined.
